(** * CustomProvider: node-list ingestion of surgio

    A shallow embedding of [src/provider/CustomProvider.ts]: the legacy
    [base64] envelope decoder, the deprecated-field guard, the type
    dispatcher, the underlying-proxy default, the vmess post-processor and
    the [forEach] loop of [getNodeList] with its per-node [try]/[catch].

    Conventions of the embedding.
    - A JavaScript value is a [jsval]; an object is a finite map from
      property names to values ([gmap string jsval]), so that two objects
      with the same properties are equal.  Arrays and functions do not occur
      among the values the claims speak about and are left out.
    - A number is a double.  The model holds those the source can produce
      or test: the doubles that are integers ([JNum z], with [z] the value
      of the double, so that [parseInt] rounds a long run of digits to the
      nearest double as the engine does), the negative zero, the two
      infinities and [NaN]; fractional numbers are left out.
    - A string is held as its UTF-8 bytes (Rocq's [string] is a sequence of
      bytes, and a literal of this file is read that way).  Every
      well-formed JavaScript string has one such form and equal strings have
      equal forms; strings with a lone surrogate are left out.  The
      characters the source looks for ([:], [@], [#], digits, the class of
      the pattern) are ASCII, that is single bytes that occur in no other
      character.  Where the engine looks at characters that are not ASCII
      (the white space [parseInt] skips, the line terminators [.] refuses),
      the model looks at their byte sequences.  [Base64.decode] ends with
      [toString('utf8')], which keeps a byte sequence that is valid UTF-8 as
      it is and puts U+FFFD for what is not.
    - [throw] is the [Err] of a sum type; [console.error] appends to a log
      that is threaded through the loop.
    - The source tests a property with [if (node.x)], that is by the
      truthiness of its value; [truthy] is that test, and a property that is
      merely present is one whose key is in the map. *)

From Stdlib Require Import ZArith Ascii String List Bool Lia.
From stdpp Require Import base option gmap strings list fin_maps.

Local Open Scope string_scope.
Local Open Scope list_scope.
Local Open Scope Z_scope.

(** ** JavaScript values *)

#[warnings="-register-all"]
Inductive jsval : Type :=
  | JUndefined
  | JNull
  | JBool (b : bool)
  | JNum (z : Z)
  | JNaN
  | JStr (s : string)
  | JObj (o : gmap string jsval)
  | JNegZero
  | JInfinity (negative : bool).

Abbreviation jsobj := (gmap string jsval).

(** ToBoolean: [undefined], [null], [false], [0], [-0], [NaN] and the empty
    string are falsy, everything else (every object included) is truthy. *)
Definition truthy (v : jsval) : bool :=
  match v with
  | JUndefined | JNull | JNaN | JNegZero => false
  | JBool b => b
  | JNum z => negb (z =? 0)
  | JStr s => negb (String.eqb s "")
  | JObj _ | JInfinity _ => true
  end.

(** [a || b] *)
Definition js_or (a b : jsval) : jsval := if truthy a then a else b.

(** ** Errors thrown inside the per-node [try] block *)

Inductive error : Type :=
  (** a property read on [undefined] or [null] *)
  | TypeErrorRead (prop : string)
  (** a method call on a value that has no such method *)
  | TypeErrorNotAFunction (what : string)
  (** a property write on a primitive (modules are strict code) *)
  | TypeErrorWrite (prop : string)
  (** [new TypeError('Invalid base64 format')] *)
  | InvalidBase64Format
  (** [new Error('<old> 已废弃, 请使用 <new>')] *)
  | DeprecatedField (old new : string)
  (** [new TypeError(`无法识别的节点类型：${type}`)] *)
  | UnknownNodeType (type : jsval)
  (** what a validator's [parse] throws *)
  | ValidationError (issues : string)
  (** [new Error('wsOpts.headers 和 wsHeaders 不能同时存在')] *)
  | WsHeadersConflict
  (** [new Error('请将 path 移动到 <opts>.path')] *)
  | MovePathTo (opts : string).

Inductive result (A : Type) : Type :=
  | Ok (a : A)
  | Err (e : error).
Arguments Ok {A} a.
Arguments Err {A} e.

(** Sequencing: a [throw] skips the rest of the [try] block. *)
#[global] Instance result_ret : MRet result := fun A a => Ok a.
#[global] Instance result_bind : MBind result := fun A B k r =>
  match r with
  | Ok a => k a
  | Err e => Err e
  end.
#[global] Instance result_fmap : FMap result := fun A B f r =>
  match r with
  | Ok a => Ok (f a)
  | Err e => Err e
  end.

Definition is_ok {A} (r : result A) : bool :=
  match r with Ok _ => true | Err _ => false end.

(** [v.k] and [v[k]]: reading a property.  On [undefined] and [null] the read
    throws; a primitive has none of the properties the source reads from a
    node ([base64], [type], [udp-relay], [obfs-host], [obfs-uri],
    [headers]); an object yields [undefined] for a missing key. *)
Definition getProp (v : jsval) (k : string) : result jsval :=
  match v with
  | JUndefined | JNull => Err (TypeErrorRead k)
  | JObj o => Ok (default JUndefined (o !! k))
  | _ => Ok JUndefined
  end.

(** Reading a property of a value known to be an object. *)
Definition field (o : jsobj) (k : string) : jsval :=
  default JUndefined (o !! k).

(** ** Strings *)

Definition charCode (c : ascii) : N := N_of_ascii c.

Definition inRange (lo hi c : ascii) : bool :=
  ((charCode lo <=? charCode c) && (charCode c <=? charCode hi))%N.

Definition isUpper (c : ascii) : bool := inRange "A" "Z" c.
Definition isLower (c : ascii) : bool := inRange "a" "z" c.
Definition isDigit (c : ascii) : bool := inRange "0" "9" c.

(** The character class [[A-Za-z0-9+/=]] of [base64Pattern]. *)
Definition isPatternChar (c : ascii) : bool :=
  isUpper c || isLower c || isDigit c
  || Ascii.eqb c "+" || Ascii.eqb c "/" || Ascii.eqb c "=".

(** What [.] refuses (the pattern has no [s] flag): the line terminators.
    LF and CR are single bytes. *)
Definition isLineTerminator (c : ascii) : bool :=
  Ascii.eqb c "010" || Ascii.eqb c "013".

(** The two other line terminators, U+2028 and U+2029, are the byte
    sequences E2 80 A8 and E2 80 A9. *)
Definition isLineSeparator (a b c : ascii) : bool :=
  Ascii.eqb a "226" && Ascii.eqb b "128"
  && (Ascii.eqb c "168" || Ascii.eqb c "169").

(** [s] holds no line terminator: what a run of [.] can match. *)
Fixpoint noLineTerminator (s : string) : bool :=
  match s with
  | EmptyString => true
  | String a s1 =>
      negb (isLineTerminator a)
      && match s1 with
         | String b (String c _) => negb (isLineSeparator a b c)
         | _ => true
         end
      && noLineTerminator s1
  end.

Fixpoint allChars (p : ascii -> bool) (s : string) : bool :=
  match s with
  | EmptyString => true
  | String c s' => p c && allChars p s'
  end.

(** The longest prefix of [s] made of characters satisfying [p], and the
    rest: how a greedy [[...]+] consumes its input. *)
Fixpoint span (p : ascii -> bool) (s : string) : string * string :=
  match s with
  | EmptyString => (EmptyString, EmptyString)
  | String c s' =>
      if p c then let '(a, b) := span p s' in (String c a, b)
      else (EmptyString, s)
  end.

(** [Some rest] when [s] is [pre] followed by [rest]. *)
Fixpoint stripPrefix (pre s : string) : option string :=
  match pre, s with
  | EmptyString, _ => Some s
  | String a pre', String b s' =>
      if Ascii.eqb a b then stripPrefix pre' s' else None
  | String _ _, EmptyString => None
  end.

(** [s.split(sep)] for a one-character separator: the pieces between the
    separators, never an empty array. *)
Fixpoint split (sep : ascii) (s : string) : list string :=
  match s with
  | EmptyString => [EmptyString]
  | String c s' =>
      if Ascii.eqb c sep then EmptyString :: split sep s'
      else match split sep s' with
           | p :: ps => String c p :: ps
           | [] => [String c EmptyString]
           end
  end.

(** An element taken out of an array by destructuring: [undefined] past
    the end. *)
Definition element (pieces : list string) (i : nat) : jsval :=
  match pieces !! i with
  | Some s => JStr s
  | None => JUndefined
  end.

(** [lacks c s]: the character [c] does not occur in [s]. *)
Definition lacks (c : ascii) (s : string) : bool :=
  allChars (fun x => negb (Ascii.eqb x c)) s.

(** *** [parseInt(text, 10)] *)

(** The white space [parseInt] skips (StrWhiteSpaceChar).  In one byte:
    TAB, LF, VT, FF, CR and the space. *)
Definition isStrWhiteSpace (c : ascii) : bool :=
  ((9 <=? charCode c) && (charCode c <=? 13) || (charCode c =? 32))%N.

(** In two bytes: U+00A0, that is C2 A0. *)
Definition isStrWhiteSpace2 (a b : ascii) : bool :=
  ((charCode a =? 194) && (charCode b =? 160))%N.

(** In three bytes: U+1680 (E1 9A 80), U+2000 to U+200A (E2 80 80 to
    E2 80 8A), U+2028 and U+2029 (E2 80 A8, E2 80 A9), U+202F (E2 80 AF),
    U+205F (E2 81 9F), U+3000 (E3 80 80) and U+FEFF (EF BB BF). *)
Definition isStrWhiteSpace3 (a b c : ascii) : bool :=
  ((charCode a =? 225) && (charCode b =? 154) && (charCode c =? 128)
   || (charCode a =? 226) && (charCode b =? 128)
      && ((128 <=? charCode c) && (charCode c <=? 138)
          || (charCode c =? 168) || (charCode c =? 169)
          || (charCode c =? 175))
   || (charCode a =? 226) && (charCode b =? 129) && (charCode c =? 159)
   || (charCode a =? 227) && (charCode b =? 128) && (charCode c =? 128)
   || (charCode a =? 239) && (charCode b =? 187) && (charCode c =? 191))%N.

Fixpoint skipWhiteSpace (s : string) : string :=
  match s with
  | EmptyString => EmptyString
  | String a s1 =>
      if isStrWhiteSpace a then skipWhiteSpace s1
      else
        match s1 with
        | EmptyString => s
        | String b s2 =>
            if isStrWhiteSpace2 a b then skipWhiteSpace s2
            else
              match s2 with
              | EmptyString => s
              | String c s3 =>
                  if isStrWhiteSpace3 a b c then skipWhiteSpace s3 else s
              end
        end
  end.

Definition digitValue (c : ascii) : Z := Z.of_N (charCode c) - 48.

(** The value of the leading decimal digits of [s], [None] when [s] starts
    with no digit; [acc] is the value read so far. *)
Fixpoint readDigits (acc : option Z) (s : string) : option Z :=
  match s with
  | String c s' =>
      if isDigit c
      then readDigits (Some (10 * default 0 acc + digitValue c)) s'
      else acc
  | EmptyString => acc
  end.

(** The double nearest to the integer [n >= 0], ties going to the even
    significand; [None] past the largest double (the result is then
    [Infinity]).  Below 2^53 every integer is a double. *)
Definition toDouble (n : Z) : option Z :=
  if n <? 2 ^ 53 then Some n
  else
    let shift := Z.log2 n - 52 in
    let q := Z.shiftr n shift in
    let r := n - Z.shiftl q shift in
    let half := Z.shiftl 1 (shift - 1) in
    let q' := if (half <? r) || ((r =? half) && Z.odd q) then q + 1 else q in
    let v := Z.shiftl q' shift in
    if v <? 2 ^ 1024 then Some v else None.

(** The number the digits read stand for, with the sign read. *)
Definition signedNumber (negative : bool) (n : Z) : jsval :=
  match toDouble n with
  | Some v =>
      if negative then (if v =? 0 then JNegZero else JNum (- v)) else JNum v
  | None => JInfinity negative
  end.

(** [parseInt(s, 10)] on a string: white space is skipped, one sign is
    read, then the longest run of decimal digits; what follows is ignored.
    No digit gives [NaN]; otherwise the result is the double the engine
    reads off the digits, the one nearest to their value. *)
Definition parseIntString (s : string) : jsval :=
  let s1 := skipWhiteSpace s in
  let '(negative, s2) :=
    match s1 with
    | String c s' =>
        if Ascii.eqb c "-" then (true, s')
        else if Ascii.eqb c "+" then (false, s') else (false, s1)
    | EmptyString => (false, s1)
    end in
  match readDigits None s2 with
  | Some n => signedNumber negative n
  | None => JNaN
  end.

(** [parseInt(v, 10)] for a destructured piece [v]: a string, or
    [undefined], whose text ["undefined"] has no leading digit. *)
Definition parseInt (v : jsval) : jsval :=
  match v with
  | JStr s => parseIntString s
  | JUndefined => parseIntString "undefined"
  | _ => JNaN
  end.

(** *** [Base64.decode] of js-base64

    [decode] first maps the URL-safe [-] and [_] to [+] and [/] and drops
    every character outside [[A-Za-z0-9+/]] (so the padding [=] too), then
    hands the rest to [Buffer.from(_, 'base64')]: four characters give three
    bytes, a final group of three gives two bytes, of two gives one byte,
    and a single left-over character gives nothing.  The bytes are then
    read as UTF-8 by [toString('utf8')]. *)

Definition unURI (c : ascii) : ascii :=
  if Ascii.eqb c "-" then "+"%char
  else if Ascii.eqb c "_" then "/"%char else c.

Definition sextet (c : ascii) : option Z :=
  let n := Z.of_N (charCode c) in
  if isUpper c then Some (n - 65)
  else if isLower c then Some (n - 97 + 26)
  else if isDigit c then Some (n - 48 + 52)
  else if Ascii.eqb c "+" then Some 62
  else if Ascii.eqb c "/" then Some 63
  else None.

Fixpoint sextets (s : string) : list Z :=
  match s with
  | EmptyString => []
  | String c s' =>
      match sextet (unURI c) with
      | Some n => n :: sextets s'
      | None => sextets s'
      end
  end.

Definition byteChar (n : Z) : ascii := ascii_of_N (Z.to_N (Z.land n 255)).

Fixpoint decodeSextets (l : list Z) : string :=
  match l with
  | a :: b :: c :: d :: rest =>
      let n := Z.lor (Z.lor (Z.shiftl a 18) (Z.shiftl b 12))
                     (Z.lor (Z.shiftl c 6) d) in
      String (byteChar (Z.shiftr n 16))
        (String (byteChar (Z.shiftr n 8))
           (String (byteChar n) (decodeSextets rest)))
  | [a; b; c] =>
      let n := Z.lor (Z.lor (Z.shiftl a 18) (Z.shiftl b 12)) (Z.shiftl c 6) in
      String (byteChar (Z.shiftr n 16))
        (String (byteChar (Z.shiftr n 8)) EmptyString)
  | [a; b] =>
      let n := Z.lor (Z.shiftl a 18) (Z.shiftl b 12) in
      String (byteChar (Z.shiftr n 16)) EmptyString
  | _ => EmptyString
  end.

(** [toString('utf8')]: the text the bytes encode.  A well-formed sequence
    is the form of its own character and is kept; every maximal ill-formed
    run (a byte that starts no sequence, a sequence cut short by a byte out
    of the range it allows, or by the end) gives one U+FFFD, the bytes
    EF BF BD, and the byte that cut a sequence short is read again.  The
    byte order mark is kept. *)
Definition replacementCharacter : string :=
  String "239" (String "191" (String "189" EmptyString)).

(** For a byte that starts a sequence of more than one byte: how many bytes
    follow, and the range the first of them must lie in. *)
Definition leadByte (b : N) : option (nat * N * N) :=
  (if (194 <=? b) && (b <=? 223) then Some (1%nat, 128, 191)
   else if (224 <=? b) && (b <=? 239)
   then Some (2%nat, if b =? 224 then 160 else 128,
              if b =? 237 then 159 else 191)
   else if (240 <=? b) && (b <=? 244)
   then Some (3%nat, if b =? 240 then 144 else 128,
              if b =? 244 then 143 else 191)
   else None)%N.

(** [pending] is the sequence being read, if any: the bytes seen, how many
    are still needed, and the range the next one must lie in. *)
Fixpoint utf8From (pending : option (string * nat * N * N)) (s : string)
  : string :=
  match s with
  | EmptyString =>
      match pending with
      | None => EmptyString
      | Some _ => replacementCharacter
      end
  | String c s' =>
      let b := charCode c in
      let fresh :=
        if (b <? 128)%N then String c (utf8From None s')
        else
          match leadByte b with
          | Some (needed, lo, hi) =>
              utf8From (Some (String c EmptyString, needed, lo, hi)) s'
          | None => replacementCharacter +:+ utf8From None s'
          end in
      match pending with
      | None => fresh
      | Some (seen, needed, lo, hi) =>
          if ((lo <=? b) && (b <=? hi))%N then
            match needed with
            | S (S more) =>
                utf8From
                  (Some (seen +:+ String c EmptyString, S more, 128%N, 191%N))
                  s'
            | _ => seen +:+ String c (utf8From None s')
            end
          else replacementCharacter +:+ fresh
      end
  end.

Definition utf8Text (bytes : string) : string := utf8From None bytes.

Definition Base64_decode (src : string) : string :=
  utf8Text (decodeSextets (sextets src)).

(** ** The envelope pattern

    The pattern of the source is anchored at both ends and reads: the group
    [(ss|vmess)], the text [://], the group [([A-Za-z0-9+/=]+)], and an
    optional third group made of [#] followed by any run of [.].  The record
    holds what [String.match] returns for it, the three capture groups
    ([match[3]] is [None] when the optional group took no part). *)

Record envelopeMatch : Type := {
  scheme : string;             (* match[1] *)
  base64String : string;       (* match[2] *)
  fragment : option string     (* match[3] *)
}.

(** After the scheme: [:\/\/], the greedy class run, which must be non-empty,
    then either the end of the input or [#] and any characters but line
    terminators up to the end.  The run stops at the first character outside
    the class; giving characters back cannot help, since the character after
    a shorter run is in the class and so is neither [#] nor the end. *)
Definition matchAfterScheme (sch rest : string) : option envelopeMatch :=
  match stripPrefix "://" rest with
  | None => None
  | Some body =>
      let '(payload, tail) := span isPatternChar body in
      match payload with
      | EmptyString => None
      | String _ _ =>
          match tail with
          | EmptyString =>
              Some {| scheme := sch; base64String := payload;
                      fragment := None |}
          | String c after =>
              if Ascii.eqb c "#" && noLineTerminator after
              then Some {| scheme := sch; base64String := payload;
                           fragment := Some tail |}
              else None
          end
      end
  end.

(** The alternation tries [ss] first and [vmess] when that fails. *)
Definition matchBase64Pattern (s : string) : option envelopeMatch :=
  match rest ← stripPrefix "ss" s; matchAfterScheme "ss" rest with
  | Some m => Some m
  | None => rest ← stripPrefix "vmess" s; matchAfterScheme "vmess" rest
  end.

Definition envelopeText (m : envelopeMatch) : string :=
  scheme m +:+ "://" +:+ base64String m +:+ default "" (fragment m).

Definition wellFormedMatch (m : envelopeMatch) : Prop :=
  (scheme m = "ss" \/ scheme m = "vmess")
  /\ base64String m ≠ ""
  /\ allChars isPatternChar (base64String m) = true
  /\ (fragment m = None
      \/ exists t, fragment m = Some (String "#" t)
                   /\ noLineTerminator t = true).

(** ** Node types *)

Inductive NodeTypeEnum : Type :=
  | Shadowsocks | Shadowsocksr | Vmess | Trojan | Socks5 | HTTP | HTTPS
  | Snell | Tuic | Wireguard | Hysteria2 | Vless.

(** Modelled from the spec: the string each member of [NodeTypeEnum] stands
    for (the enum is declared in [../types], which is not among the sources;
    the spec names the twelve variants shadowsocks, shadowsocksr, vmess,
    trojan, socks5, http, https, snell, tuic, wireguard, hysteria2, vless). *)
Definition tagOf (t : NodeTypeEnum) : string :=
  match t with
  | Shadowsocks => "shadowsocks"
  | Shadowsocksr => "shadowsocksr"
  | Vmess => "vmess"
  | Trojan => "trojan"
  | Socks5 => "socks5"
  | HTTP => "http"
  | HTTPS => "https"
  | Snell => "snell"
  | Tuic => "tuic"
  | Wireguard => "wireguard"
  | Hysteria2 => "hysteria2"
  | Vless => "vless"
  end.

Definition allNodeTypes : list NodeTypeEnum :=
  [Shadowsocks; Shadowsocksr; Vmess; Trojan; Socks5; HTTP; HTTPS;
   Snell; Tuic; Wireguard; Hysteria2; Vless].

(** [v === NodeTypeEnum.X] *)
Definition isTag (v : jsval) (t : NodeTypeEnum) : bool :=
  match v with
  | JStr s => String.eqb s (tagOf t)
  | _ => false
  end.

(** The [case] labels of the dispatcher's [switch (type)], tried in order;
    [None] is its [default]. *)
Definition switchType (v : jsval) : option NodeTypeEnum :=
  List.find (isTag v) allNodeTypes.

(** ** The legacy envelope decoder *)

Inductive logEntry : Type :=
  (** [console.error('Invalid base64 format')] *)
  | LogInvalidBase64
  (** [console.error('Base64 extraction is only supported for shadowsocks
      and vmess')] *)
  | LogUnsupportedScheme
  (** [console.error(`Error parsing node at index ${index}:`, err)] *)
  | LogNodeError (index : nat) (err : error).

(** [const nodeTypeMap = { ss: ..., vmess: ... }] *)
Definition nodeTypeMap : gmap string NodeTypeEnum :=
  {[ "ss" := Shadowsocks; "vmess" := Vmess ]}.

(** The own enumerable properties [{...node}] copies: those of an object.
    The spread runs only for a node whose [base64] is truthy, hence for an
    object; on a number or a boolean it would copy nothing. *)
Definition spread (node : jsval) : jsobj :=
  match node with
  | JObj o => o
  | _ => ∅
  end.

(** The [case NodeTypeEnum.Shadowsocks] arm, from the decoded text. *)
Definition decodeShadowsocks (node : jsval) (decoded : string)
  : result jsval :=
  let pieces := split ":" decoded in
  let method := element pieces 0 in
  let passwordWithHost := element pieces 1 in
  let port := element pieces 2 in
  match passwordWithHost with
  | JStr pwh =>
      let pieces' := split "@" pwh in
      let password := element pieces' 0 in
      let hostname := element pieces' 1 in
      Ok (JObj (<["password" := password]>
               (<["method" := method]>
               (<["port" := parseInt port]>
               (<["hostname" := hostname]>
               (<["type" := JStr (tagOf Shadowsocks)]>
               (spread node)))))))
  | _ => Err (TypeErrorRead "split")
  end.

(** The arm of [switch (nodeType)] that ran. *)
Inductive decoderArm : Type := ArmShadowsocks | ArmVmess | ArmDefault.

Definition switchNodeType (nodeType : option NodeTypeEnum) : decoderArm :=
  match nodeType with
  | Some Shadowsocks => ArmShadowsocks
  | Some Vmess => ArmVmess
  | _ => ArmDefault
  end.

(** [if (node.base64) { ... }]: the node after the block, and what the
    block wrote to the console. *)
Definition decodeEnvelope (node : jsval) : list logEntry * result jsval :=
  match getProp node "base64" with
  | Err e => ([], Err e)
  | Ok b =>
      if truthy b then
        match b with
        | JStr s =>
            match matchBase64Pattern s with
            | Some m =>
                let nodeType := nodeTypeMap !! scheme m in
                let decoded := Base64_decode (base64String m) in
                match switchNodeType nodeType with
                | ArmShadowsocks => ([], decodeShadowsocks node decoded)
                | ArmVmess => ([], Ok node)
                | ArmDefault => ([LogUnsupportedScheme], Ok node)
                end
            | None => ([LogInvalidBase64], Err InvalidBase64Format)
            end
        | _ => ([], Err (TypeErrorNotAFunction "node.base64.match"))
        end
      else ([], Ok node)
  end.

(** What the decoder leaves at [k], for a result that is an object. *)
Definition prop (v : jsval) (k : string) : jsval := field (spread v) k.

Definition decodedKeys : list string :=
  ["type"; "hostname"; "port"; "method"; "password"].

(** *** The decoder as the specification words it *)

(** The decoder as the specification words it, for comparison with
    [decodeShadowsocks]: the text is cut at the first [@] into
    [method:password] and [host:port], and each half is cut at its first
    [:]. *)
Fixpoint splitFirst (sep : ascii) (s : string) : option (string * string) :=
  match s with
  | EmptyString => None
  | String c s' =>
      if Ascii.eqb c sep then Some (EmptyString, s')
      else '(a, b) ← splitFirst sep s'; Some (String c a, b)
  end.

Definition spec_shadowsocksFields (decoded : string)
  : option (jsval * jsval * jsval * jsval) :=
  '(methodPassword, hostPort) ← splitFirst "@" decoded;
  '(method, password) ← splitFirst ":" methodPassword;
  '(hostname, port) ← splitFirst ":" hostPort;
  Some (JStr method, JStr password, JStr hostname, parseIntString port).

(** The same four fields, read off the node the decoder of the source
    returns. *)
Definition decodedFields (node : jsval) : jsval * jsval * jsval * jsval :=
  (prop node "method", prop node "password", prop node "hostname",
   prop node "port").

(** ** The deprecated-field guard *)

Definition deprecatedFields : list (string * string) :=
  [("udp-relay", "udpRelay"); ("obfs-host", "obfsHost");
   ("obfs-uri", "obfsUri")].

(** [if (node[old]) { throw new Error(...) }] *)
Definition guardField (node : jsval) (old new : string) : result () :=
  v ← getProp node old;
  if truthy v then Err (DeprecatedField old new) else Ok ().

Definition deprecatedGuard (node : jsval) : result () :=
  guardField node "udp-relay" "udpRelay";;
  guardField node "obfs-host" "obfsHost";;
  guardField node "obfs-uri" "obfsUri".

(** ** The vmess post-processor *)

(** [if (node.host) { node.sni = node.host }] *)
Definition vmessSni (node : jsobj) : jsobj :=
  if truthy (field node "host") then <["sni" := field node "host"]> node
  else node.

(** [if (node.wsHeaders) { ... }] *)
Definition vmessWsHeaders (node : jsobj) : result jsobj :=
  if truthy (field node "wsHeaders") then
    if negb (truthy (field node "wsOpts")) then
      Ok (<["wsOpts" :=
              JObj {[ "headers" := field node "wsHeaders";
                      "path" := js_or (field node "path") (JStr "/") ]}]> node)
    else
      headers ← getProp (field node "wsOpts") "headers";
      if truthy headers then Err WsHeadersConflict
      else
        match field node "wsOpts" with
        | JObj opts =>
            Ok (<["wsOpts" :=
                    JObj (<["headers" := field node "wsHeaders"]> opts)]> node)
        | _ => Err (TypeErrorWrite "headers")
        end
  else Ok node.

(** [if (node.network === net && node.path) { throw ... }] *)
Definition pathCheck (node : jsobj) (net opts : string) : result () :=
  match field node "network" with
  | JStr n =>
      if String.eqb n net && truthy (field node "path")
      then Err (MovePathTo opts) else Ok ()
  | _ => Ok ()
  end.

(** The three checks on the transport, one after the other. *)
Definition pathChecks (node : jsobj) : result jsobj :=
  pathCheck node "ws" "wsOpts";;
  pathCheck node "h2" "h2Opts";;
  pathCheck node "http" "httpOpts";;
  Ok node.

Definition prepareVmessNodeConfig (node : jsobj) : result jsobj :=
  vmessWsHeaders (vmessSni node) ≫= pathChecks.

(** The name of the options object a transport keeps its path in. *)
Definition transportOptions (net : string) : string := net +:+ "Opts".

Definition pathTransports : list string := ["ws"; "h2"; "http"].

(** The indexed failure reports among the lines of the console. *)
Definition nodeErrors (log : list logEntry) : list (nat * error) :=
  omap (fun entry =>
          match entry with
          | LogNodeError index err => Some (index, err)
          | _ => None
          end) log.

(** ** The provider *)

Section Provider.

(** [GetNodeListParams], the parameter bag handed to a supplier. *)
Context {Params : Type}.

(** The schema validators of [../validators], which are not among the
    sources: [validators t node] is [XNodeConfigValidator.parse(node)] for
    the validator of type [t], the validated configuration or what [parse]
    throws.  Every schema is an object schema, so that a validated
    configuration is an object. *)
Variable validators : NodeTypeEnum -> jsval -> result jsobj.

(** [nodeList]: an array, or a function from the parameters to a promise of
    an array, which may reject. *)
Inductive NodeSource : Type :=
  | StaticList (nodes : list jsval)
  | Supplier (supply : Params -> result (list jsval)).

Record CustomProvider : Type := {
  nodeList : NodeSource;
  underlyingProxy : option string
}.

Definition optionalString (o : option string) : jsval :=
  match o with
  | Some s => JStr s
  | None => JUndefined
  end.

(** The dispatcher: [switch (type)] over the twelve validators, the
    [default] arm throwing. *)
Definition dispatch (type node : jsval) : result jsobj :=
  match switchType type with
  | Some t => validators t node
  | None => Err (UnknownNodeType type)
  end.

(** [if (this.underlyingProxy && !parsedNode.underlyingProxy) { ... }] *)
Definition fillUnderlyingProxy (this : CustomProvider) (parsedNode : jsobj)
  : jsobj :=
  if truthy (optionalString (underlyingProxy this))
     && negb (truthy (field parsedNode "underlyingProxy"))
  then <["underlyingProxy" := optionalString (underlyingProxy this)]>
         parsedNode
  else parsedNode.

(** The [try] block from [const type = node.type] on. *)
Definition validateNode (this : CustomProvider) (node : jsval)
  : result jsobj :=
  type ← getProp node "type";
  deprecatedGuard node;;
  parsedNode ← dispatch type node;
  let parsedNode := fillUnderlyingProxy this parsedNode in
  if isTag (field parsedNode "type") Vmess
  then prepareVmessNodeConfig parsedNode
  else Ok parsedNode.

(** The whole [try] block for one node: what it wrote to the console and
    how it ended. *)
Definition processNode (this : CustomProvider) (node : jsval)
  : list logEntry * result jsobj :=
  let '(written, decoded) := decodeEnvelope node in
  (written, decoded ≫= validateNode this).

(** The loop state: [parsedNodeList] and the console. *)
Record loopState : Type := {
  parsedNodeList : list jsobj;
  console : list logEntry
}.

(** One call of the [forEach] callback: [push] on success, the [catch]
    arm's [console.error] with the index otherwise. *)
Definition callback (this : CustomProvider) (st : loopState)
  (node : jsval) (index : nat) : loopState :=
  let '(written, outcome) := processNode this node in
  match outcome with
  | Ok parsedNode =>
      {| parsedNodeList := parsedNodeList st ++ [parsedNode];
         console := console st ++ written |}
  | Err err =>
      {| parsedNodeList := parsedNodeList st;
         console := console st ++ written ++ [LogNodeError index err] |}
  end.

(** [nodeList.forEach(callback)], from position [index] on. *)
Fixpoint forEach (this : CustomProvider) (nodes : list jsval) (index : nat)
  (st : loopState) : loopState :=
  match nodes with
  | [] => st
  | node :: rest =>
      forEach this rest (S index) (callback this st node index)
  end.

(** Resolving the node source: the array itself, or the awaited result of
    the supplier, whose rejection is the rejection of [getNodeList]. *)
Definition resolve (this : CustomProvider) (params : Params)
  : result (list jsval) :=
  match nodeList this with
  | StaticList nodes => Ok nodes
  | Supplier supply => supply params
  end.

Definition getNodeListState (this : CustomProvider) (params : Params)
  : result loopState :=
  nodes ← resolve this params;
  Ok (forEach this nodes 0%nat
        {| parsedNodeList := []; console := [] |}).

Definition getNodeList (this : CustomProvider) (params : Params)
  : result (list jsobj) :=
  parsedNodeList <$> getNodeListState this params.

(** The [try] block from [const type = node.type] on, without the three
    tests of the guard. *)
Definition afterGuard (this : CustomProvider) (node : jsval)
  : result jsobj :=
  type ← getProp node "type";
  parsedNode ← dispatch type node;
  let parsedNode := fillUnderlyingProxy this parsedNode in
  if isTag (field parsedNode "type") Vmess
  then prepareVmessNodeConfig parsedNode
  else Ok parsedNode.

(** How the [try] block ends for a node: a function of the node (and of
    the provider's configuration), not of its position nor of the other
    nodes of the batch. *)
Definition outcome (this : CustomProvider) (node : jsval) : result jsobj :=
  (processNode this node).2.

Definition passed (this : CustomProvider) (node : jsval) : option jsobj :=
  match outcome this node with
  | Ok parsedNode => Some parsedNode
  | Err _ => None
  end.

(** The failing nodes of a batch with their positions, the first node of
    [nodes] standing at position [index]. *)
Fixpoint failuresFrom (this : CustomProvider) (index : nat)
  (nodes : list jsval) : list (nat * error) :=
  match nodes with
  | [] => []
  | node :: rest =>
      match outcome this node with
      | Ok _ => failuresFrom this (S index) rest
      | Err err => (index, err) :: failuresFrom this (S index) rest
      end
  end.

(** The node as it stands after the decoder, the guard, the validator of
    its type and the underlying-proxy default: what the vmess
    post-processor receives. *)
Definition validatedNode (this : CustomProvider) (node : jsval)
  : result jsobj :=
  decoded ← (decodeEnvelope node).2;
  type ← getProp decoded "type";
  deprecatedGuard decoded;;
  fillUnderlyingProxy this <$> dispatch type decoded.

End Provider.

Arguments StaticList {Params} nodes.
Arguments Supplier {Params} supply.

(** ** A concrete instance, to run the pipeline on examples

    Schemas that check the [type] literal and keep every property of the
    node, as a zod object schema in [passthrough] mode does. *)
Definition passthroughValidators (t : NodeTypeEnum) (node : jsval)
  : result jsobj :=
  match node with
  | JObj o =>
      if isTag (field o "type") t then Ok o
      else Err (ValidationError "type")
  | _ => Err (ValidationError "expected an object")
  end.

Definition staticProvider (nodes : list jsval) (proxy : option string)
  : CustomProvider (Params := unit) :=
  {| nodeList := StaticList nodes; underlyingProxy := proxy |}.

Definition envelopeExample : string :=
  "ss://YWVzLTI1Ni1nY206c2VjcmV0QGV4YW1wbGUuY29tOjgzODg=".

Definition envelopeColonPassword : string :=
  "ss://YWVzLTI1Ni1nY206cGE6c3NAZXhhbXBsZS5jb206ODM4OA==".

(** What the node of the example envelope looks like after the decoder. *)
Definition exampleDecoded (o : jsobj) : jsobj :=
  <["password" := JStr "secret"]>
    (<["method" := JStr "aes-256-gcm"]>
    (<["port" := JNum 8388]>
    (<["hostname" := JStr "example.com"]>
    (<["type" := JStr "shadowsocks"]> o)))).

(** A node on which [udp-relay] is present with the value [false]. *)
Definition nodeUdpRelayFalse : jsobj :=
  {[ "type" := JStr "shadowsocks"; "nodeName" := JStr "node";
     "hostname" := JStr "example.com"; "port" := JNum 8388;
     "method" := JStr "aes-256-gcm"; "password" := JStr "secret";
     "udp-relay" := JBool false ]}.

Definition nodeUdpRelayTrue : jsobj :=
  <["udp-relay" := JBool true]> nodeUdpRelayFalse.

(** A node whose [base64] property is present and empty. *)
Definition nodeEmptyEnvelope : jsobj :=
  {[ "type" := JStr "shadowsocks"; "nodeName" := JStr "node";
     "hostname" := JStr "example.com"; "port" := JNum 8388;
     "method" := JStr "aes-256-gcm"; "password" := JStr "secret";
     "base64" := JStr "" ]}.

Definition nodeBadEnvelope : jsobj :=
  <["base64" := JStr "ss:/YQ=="]> nodeEmptyEnvelope.

(** A vmess node carrying both [host] and an [sni] of its own. *)
Definition nodeHostAndSni : jsobj :=
  {[ "type" := JStr "vmess"; "nodeName" := JStr "node";
     "hostname" := JStr "example.com"; "port" := JNum 443;
     "host" := JStr "a.example.com"; "sni" := JStr "b.example.com" ]}.

(** A vmess node with both kinds of headers, and one with headers to move. *)
Definition nodeTwoHeaders : jsobj :=
  {[ "type" := JStr "vmess"; "nodeName" := JStr "node";
     "network" := JStr "ws"; "path" := JStr "/legacy";
     "wsHeaders" := JObj {[ "Host" := JStr "a.example.com" ]};
     "wsOpts" :=
       JObj {[ "path" := JStr "/ws";
               "headers" := JObj {[ "Host" := JStr "b.example.com" ]} ]} ]}.

Definition nodeLegacyHeaders : jsobj :=
  {[ "type" := JStr "vmess"; "nodeName" := JStr "node";
     "network" := JStr "ws"; "path" := JStr "/legacy";
     "wsHeaders" := JObj {[ "Host" := JStr "a.example.com" ]} ]}.

(** A vmess node on the [ws] transport whose [path] is present and empty. *)
Definition nodeEmptyPath : jsobj :=
  {[ "type" := JStr "vmess"; "nodeName" := JStr "node";
     "network" := JStr "ws"; "path" := JStr "" ]}.

(** A validated node that declares an empty [underlyingProxy]. *)
Definition nodeEmptyProxy : jsobj :=
  {[ "type" := JStr "shadowsocks"; "nodeName" := JStr "node";
     "hostname" := JStr "example.com"; "port" := JNum 8388;
     "method" := JStr "aes-256-gcm"; "password" := JStr "secret";
     "underlyingProxy" := JStr "" ]}.

Definition nodeOwnProxy : jsobj :=
  <["underlyingProxy" := JStr "proxy-b"]> nodeEmptyProxy.

Definition providerWithDefault : CustomProvider (Params := unit) :=
  staticProvider [JObj nodeOwnProxy] (Some "proxy-a").

(** A vmess node on the [ws] transport with legacy headers and no path. *)
Definition nodeHeadersNoPath : jsobj :=
  {[ "type" := JStr "vmess"; "nodeName" := JStr "node";
     "network" := JStr "ws";
     "wsHeaders" := JObj {[ "Host" := JStr "a.example.com" ]} ]}.

(** The same node as it leaves the post-processor. *)
Definition nodeHeadersMoved : jsobj :=
  <["wsOpts" := JObj {[ "headers" := JObj {[ "Host" := JStr "a.example.com" ]};
                        "path" := JStr "/" ]}]> nodeHeadersNoPath.

(** A provider whose nodes come from a supplier: three nodes when the
    parameter says so, a rejection otherwise. *)
Definition supplierProvider : CustomProvider (Params := bool) :=
  {| nodeList :=
       Supplier (fun ready : bool =>
                   if ready
                   then Ok [JObj nodeOwnProxy; JNull; JObj nodeHostAndSni]
                   else Err (TypeErrorNotAFunction "fetch"));
     underlyingProxy := None |}.

(** * Properties *)

(** ** The batch loop *)

Section Batch.

Context {Params : Type}.
Variable validators : NodeTypeEnum -> jsval -> result jsobj.
Variable this : CustomProvider (Params := Params).

Lemma nodeErrors_app (l1 l2 : list logEntry) :
  nodeErrors (l1 ++ l2) = nodeErrors l1 ++ nodeErrors l2.
Proof. apply omap_app. Qed.

(** The decoder writes warnings only, never an indexed report. *)
Lemma decodeEnvelope_no_report (node : jsval) :
  nodeErrors (decodeEnvelope node).1 = [].
Proof.
  unfold decodeEnvelope.
  destruct (getProp node "base64") as [b|]; [|done].
  destruct (truthy b); [|done].
  destruct b; try done.
  destruct (matchBase64Pattern s); [|done].
  by destruct (switchNodeType _).
Qed.

Lemma processNode_no_report (node : jsval) :
  nodeErrors (processNode validators this node).1 = [].
Proof.
  unfold processNode.
  pose proof (decodeEnvelope_no_report node) as H.
  by destruct (decodeEnvelope node).
Qed.

Lemma callback_parsed (st : loopState) (node : jsval) (index : nat) :
  parsedNodeList (callback validators this st node index)
  = parsedNodeList st ++ option_list (passed validators this node).
Proof.
  unfold callback, passed, outcome.
  destruct (processNode validators this node) as [written [n|e]]; simpl.
  - done.
  - by rewrite app_nil_r.
Qed.

Lemma callback_errors (st : loopState) (node : jsval) (index : nat) :
  nodeErrors (console (callback validators this st node index))
  = nodeErrors (console st) ++ failuresFrom validators this index [node].
Proof.
  unfold callback. simpl. unfold outcome.
  pose proof (processNode_no_report node) as H.
  destruct (processNode validators this node) as [written [n|e]];
    simpl in *; rewrite !nodeErrors_app, ?H; simpl.
  - by rewrite app_nil_r.
  - done.
Qed.

Lemma forEach_parsed (nodes : list jsval) :
  forall index st,
    parsedNodeList (forEach validators this nodes index st)
    = parsedNodeList st ++ omap (passed validators this) nodes.
Proof.
  induction nodes as [|node rest IH]; intros index st; simpl.
  - by rewrite app_nil_r.
  - rewrite IH, callback_parsed, <- app_assoc. f_equal.
    by destruct (passed validators this node).
Qed.

Lemma forEach_errors (nodes : list jsval) :
  forall index st,
    nodeErrors (console (forEach validators this nodes index st))
    = nodeErrors (console st) ++ failuresFrom validators this index nodes.
Proof.
  induction nodes as [|node rest IH]; intros index st; simpl.
  - by rewrite app_nil_r.
  - rewrite IH, callback_errors, <- app_assoc. f_equal. simpl.
    by destruct (outcome validators this node).
Qed.

(** A failure is reported at position [i] exactly when the node standing
    there fails, and with the error of that node. *)
Lemma failuresFrom_lookup (nodes : list jsval) :
  forall index i err,
    (i, err) ∈ failuresFrom validators this index nodes
    <-> exists j node, i = (index + j)%nat /\ nodes !! j = Some node
                       /\ outcome validators this node = Err err.
Proof.
  induction nodes as [|node rest IH]; intros index i err; simpl.
  - split; [by intros ?%elem_of_nil | by intros (j & n & _ & ? & _)].
  - split.
    + intros Hin.
      destruct (outcome validators this node) as [n|e] eqn:Hout.
      * apply IH in Hin as (j & n' & -> & Hj & Hn').
        exists (S j), n'. split; [lia | done].
      * apply elem_of_cons in Hin as [Heq | Hin].
        -- injection Heq as -> ->. exists 0%nat, node.
           split; [lia | done].
        -- apply IH in Hin as (j & n' & -> & Hj & Hn').
           exists (S j), n'. split; [lia | done].
    + intros (j & n' & -> & Hj & Hn').
      destruct j as [|j]; simpl in Hj.
      * injection Hj as ->. rewrite Hn', Nat.add_0_r. apply elem_of_cons. by left.
      * assert ((index + S j, err)%nat ∈ failuresFrom validators this (S index) rest) as Hin.
        { apply IH. exists j, n'. split; [lia | done]. }
        destruct (outcome validators this node); [done | apply elem_of_cons; by right].
Qed.

(** A batch is processed piecewise: the nodes before and after a node
    contribute what they contribute on their own. *)
Lemma survivors_app (before after : list jsval) :
  omap (passed validators this) (before ++ after) = omap (passed validators this) before ++ omap (passed validators this) after.
Proof. apply omap_app. Qed.

(** A supplier that rejects makes [getNodeList] reject, with its reason. *)
Lemma getNodeList_supplier_rejects (params : Params)
  (supply : Params -> result (list jsval)) (reason : error) :
  nodeList this = Supplier supply ->
  supply params = Err reason ->
  getNodeList validators this params = Err reason.
Proof.
  intros Hsrc Hsupply. unfold getNodeList, getNodeListState, resolve.
  by rewrite Hsrc, Hsupply.
Qed.

(** C1.  Whatever the node source of the provider, a static list [nodes]
    or a supplier that resolves to [nodes] for the parameters of the call,
    [getNodeList] returns the list of the validated configurations of the
    nodes of [nodes] whose [try] block ran to its end, in the order of the
    input and with nothing standing for a failed node; the console holds
    one indexed report per failed node, at the index of that node and with
    its error; a node ends as it would on its own, whatever stands before
    and after it. *)
Theorem getNodeList_survivors_in_order (params : Params)
  (nodes : list jsval) :
  nodeList this = StaticList nodes
  \/ (exists supply,
        nodeList this = Supplier supply /\ supply params = Ok nodes) ->
  getNodeList validators this params
  = Ok (omap (passed validators this) nodes)
  /\ (forall before node after,
        nodes = before ++ node :: after ->
        getNodeList validators this params
        = Ok (omap (passed validators this) before
              ++ option_list (passed validators this node)
              ++ omap (passed validators this) after))
  /\ exists st,
      getNodeListState validators this params = Ok st
      /\ parsedNodeList st = omap (passed validators this) nodes
      /\ nodeErrors (console st) = failuresFrom validators this 0 nodes
      /\ (forall i err,
            (i, err) ∈ nodeErrors (console st)
            <-> exists node, nodes !! i = Some node
                             /\ outcome validators this node = Err err)
      /\ (forall i node parsedNode,
            nodes !! i = Some node ->
            outcome validators this node = Ok parsedNode ->
            parsedNode ∈ parsedNodeList st).
Proof.
  intros Hsrc.
  assert (resolve this params = Ok nodes) as Hres.
  { unfold resolve.
    destruct Hsrc as [-> | (supply & -> & Hsupply)]; [done | exact Hsupply]. }
  unfold getNodeList, getNodeListState. rewrite Hres. simpl.
  assert (parsedNodeList
            (forEach validators this nodes 0
               {| parsedNodeList := []; console := [] |})
          = omap (passed validators this) nodes) as Hparsed
    by (by rewrite forEach_parsed).
  split; [by rewrite <- Hparsed |].
  split.
  { intros before node after ->. rewrite Hparsed, omap_app. simpl.
    by destruct (passed validators this node). }
  eexists. split; [done |].
  split; [done |].
  assert (nodeErrors
            (console (forEach validators this nodes 0
                        {| parsedNodeList := []; console := [] |}))
          = failuresFrom validators this 0 nodes) as Herr
    by (by rewrite forEach_errors).
  split; [done |].
  split.
  - intros i err. rewrite Herr, failuresFrom_lookup. split.
    + intros (j & node & -> & Hj & Hnode). by exists node.
    + intros (node & Hi & Hnode). by exists i, node.
  - intros i node parsedNode Hi Hnode. rewrite Hparsed.
    apply list_elem_of_omap. exists node. split.
    + by eapply list_elem_of_lookup_2.
    + unfold passed. by rewrite Hnode.
Qed.

End Batch.

Lemma getNodeList_survivors_in_order_witness :
  getNodeList passthroughValidators supplierProvider true
  = Ok [nodeOwnProxy; <["sni" := JStr "a.example.com"]> nodeHostAndSni]
  /\ exists st,
      getNodeListState passthroughValidators supplierProvider true = Ok st
      /\ nodeErrors (console st) = [(1%nat, TypeErrorRead "base64")].
Proof.
  destruct (getNodeList_survivors_in_order passthroughValidators
              supplierProvider true
              [JObj nodeOwnProxy; JNull; JObj nodeHostAndSni])
    as (Hget & _ & st & Hst & _ & Herr & _).
  - right. eexists. split; reflexivity.
  - split; [exact Hget |]. exists st. split; [exact Hst | exact Herr].
Defined.

(** ** Reading properties after updates *)

Lemma field_insert (o : jsobj) (k k' : string) (v : jsval) :
  field (<[k := v]> o) k' = if decide (k = k') then v else field o k'.
Proof.
  unfold field. rewrite lookup_insert. by case_decide.
Qed.

Lemma field_insert_eq (o : jsobj) (k : string) (v : jsval) :
  field (<[k := v]> o) k = v.
Proof. rewrite field_insert. by case_decide. Qed.

Lemma field_insert_ne (o : jsobj) (k k' : string) (v : jsval) :
  k ≠ k' -> field (<[k := v]> o) k' = field o k'.
Proof. intros. rewrite field_insert. by case_decide. Qed.

Lemma getProp_obj (o : jsobj) (k : string) :
  getProp (JObj o) k = Ok (field o k).
Proof. done. Qed.

(** A property read throws on [undefined] and [null] only, which are
    falsy. *)
Lemma getProp_truthy (v : jsval) (k : string) :
  truthy v = true -> exists x, getProp v k = Ok x.
Proof. destruct v; simpl; try done; eauto. Qed.

(** ** Splitting *)

Lemma split_lacks (c : ascii) (s : string) :
  lacks c s = true -> split c s = [s].
Proof.
  induction s as [|x s IH]; simpl; [done |].
  intros [Hx Hs]%andb_prop.
  apply negb_true_iff in Hx. rewrite Hx, (IH Hs). done.
Qed.

Lemma split_app (c : ascii) (a b : string) :
  lacks c a = true -> split c (a +:+ String c b) = a :: split c b.
Proof.
  induction a as [|x a IH].
  - intros _. change (EmptyString +:+ String c b) with (String c b).
    simpl. by rewrite Ascii.eqb_refl.
  - intros [Hx Ha]%andb_prop.
    apply negb_true_iff in Hx.
    change (String x a +:+ String c b) with (String x (a +:+ String c b)).
    simpl. by rewrite Hx, (IH Ha).
Qed.

Lemma append_cons (x : ascii) (a b : string) :
  String x a +:+ b = String x (a +:+ b).
Proof. done. Qed.

Lemma lacks_app (c : ascii) (a b : string) :
  lacks c (a +:+ b) = lacks c a && lacks c b.
Proof.
  unfold lacks. induction a as [|x a IH]; [done |].
  rewrite append_cons. simpl. by rewrite IH, andb_assoc.
Qed.

Lemma append_assoc (a b c : string) :
  (a +:+ b) +:+ c = a +:+ (b +:+ c).
Proof.
  induction a as [|x a IH]; [done |].
  rewrite !append_cons. by rewrite IH.
Qed.

(** ** The envelope pattern *)

Lemma matchAfterScheme_scheme (sch rest : string) (m : envelopeMatch) :
  matchAfterScheme sch rest = Some m -> scheme m = sch.
Proof.
  unfold matchAfterScheme.
  destruct (stripPrefix "://" rest) as [body|]; [|done].
  destruct (span isPatternChar body) as [payload tail].
  destruct payload; [done |].
  destruct tail as [|c after].
  - by intros [= <-].
  - destruct (_ && _); [by intros [= <-] | done].
Qed.

Lemma matchBase64Pattern_scheme (s : string) (m : envelopeMatch) :
  matchBase64Pattern s = Some m -> scheme m = "ss" \/ scheme m = "vmess".
Proof.
  unfold matchBase64Pattern.
  destruct (stripPrefix "ss" s ≫= matchAfterScheme "ss") as [m'|] eqn:Hss.
  - intros [= <-]. left.
    destruct (stripPrefix "ss" s) as [rest|]; [|done].
    by eapply matchAfterScheme_scheme.
  - intros H. right.
    destruct (stripPrefix "vmess" s) as [rest|]; [|done].
    by eapply matchAfterScheme_scheme.
Qed.

Lemma matchBase64Pattern_nonempty (s : string) (m : envelopeMatch) :
  matchBase64Pattern s = Some m -> truthy (JStr s) = true.
Proof. by destruct s. Qed.

(** ** The Shadowsocks envelope *)

(** The decoder on a matched [ss] envelope runs the Shadowsocks arm on the
    decoded text and writes nothing to the console. *)
Lemma decodeEnvelope_ss (o : jsobj) (env : string) (m : envelopeMatch) :
  field o "base64" = JStr env ->
  matchBase64Pattern env = Some m ->
  scheme m = "ss" ->
  decodeEnvelope (JObj o)
  = ([], decodeShadowsocks (JObj o) (Base64_decode (base64String m))).
Proof.
  intros Hb Hm Hs. unfold decodeEnvelope.
  rewrite getProp_obj, Hb, (matchBase64Pattern_nonempty _ _ Hm), Hm, Hs.
  done.
Qed.

(** The Shadowsocks arm on a text whose pieces hold no separator. *)
Lemma decodeShadowsocks_pieces (o : jsobj)
  (method password hostname port : string) :
  lacks ":" method = true ->
  lacks ":" password = true -> lacks "@" password = true ->
  lacks ":" hostname = true -> lacks "@" hostname = true ->
  lacks ":" port = true ->
  decodeShadowsocks (JObj o)
    (method +:+ ":" +:+ password +:+ "@" +:+ hostname +:+ ":" +:+ port)
  = Ok (JObj (<["password" := JStr password]>
             (<["method" := JStr method]>
             (<["port" := parseIntString port]>
             (<["hostname" := JStr hostname]>
             (<["type" := JStr "shadowsocks"]> o)))))).
Proof.
  intros Hm Hp Hp' Hh Hh' Hport.
  assert (lacks ":" (password +:+ "@" +:+ hostname) = true) as Hmid.
  { rewrite lacks_app, Hp. simpl. exact Hh. }
  unfold decodeShadowsocks.
  change (method +:+ ":" +:+ password +:+ "@" +:+ hostname +:+ ":" +:+ port)
    with (method +:+ String ":" (password +:+ "@" +:+ hostname +:+ ":" +:+ port)).
  rewrite (split_app _ _ _ Hm).
  replace (password +:+ "@" +:+ hostname +:+ ":" +:+ port)
    with ((password +:+ "@" +:+ hostname) +:+ String ":" port)
    by (by rewrite !append_assoc).
  rewrite (split_app _ _ _ Hmid), (split_lacks _ _ Hport).
  unfold element; simpl.
  change (password +:+ "@" +:+ hostname) with (password +:+ String "@" hostname).
  rewrite (split_app _ _ _ Hp'), (split_lacks _ _ Hh').
  done.
Qed.

(** C2, as stated, fails: for the payload
    [aes-256-gcm:pa:ss@example.com:8388], whose password holds a colon,
    cutting at the first [@] gives the host [example.com] and the port
    [8388], while the source, which cuts at the colons first, takes [pa] for
    the password, finds no host and reads the port off [ss@example.com]. *)
Lemma decodeShadowsocks_password_with_colon :
  matchBase64Pattern envelopeColonPassword
  = Some {| scheme := "ss";
            base64String := "YWVzLTI1Ni1nY206cGE6c3NAZXhhbXBsZS5jb206ODM4OA==";
            fragment := None |}
  /\ Base64_decode "YWVzLTI1Ni1nY206cGE6c3NAZXhhbXBsZS5jb206ODM4OA=="
     = "aes-256-gcm:pa:ss@example.com:8388"
  /\ spec_shadowsocksFields "aes-256-gcm:pa:ss@example.com:8388"
     = Some (JStr "aes-256-gcm", JStr "pa:ss", JStr "example.com", JNum 8388)
  /\ decodedFields
       <$> (decodeEnvelope
              (JObj {[ "base64" := JStr envelopeColonPassword ]})).2
     = Ok (JStr "aes-256-gcm", JStr "pa", JUndefined, JNaN).
Proof. repeat split; vm_compute; reflexivity. Qed.

(** C2, amended.  For a node whose envelope matches with the scheme [ss] and
    whose payload decodes to [method:password@hostname:port], where none of
    the four holds a colon and neither the password nor the host holds an
    [@], the decoder cuts the text at the colons into the method,
    [password@hostname] and the port, cuts the middle piece at the [@], and
    returns the node with [type] set to the Shadowsocks tag and [method],
    [password], [hostname] and the number read off the port written over
    whatever stood under these names; every other property is kept. *)
Theorem decodeEnvelope_shadowsocks_fields (o : jsobj) (env : string)
  (m : envelopeMatch) (method password hostname port : string) :
  field o "base64" = JStr env ->
  matchBase64Pattern env = Some m ->
  scheme m = "ss" ->
  Base64_decode (base64String m)
  = method +:+ ":" +:+ password +:+ "@" +:+ hostname +:+ ":" +:+ port ->
  lacks ":" method = true ->
  lacks ":" password = true -> lacks "@" password = true ->
  lacks ":" hostname = true -> lacks "@" hostname = true ->
  lacks ":" port = true ->
  exists node' : jsobj,
    decodeEnvelope (JObj o) = ([], Ok (JObj node'))
    /\ field node' "type" = JStr (tagOf Shadowsocks)
    /\ field node' "method" = JStr method
    /\ field node' "password" = JStr password
    /\ field node' "hostname" = JStr hostname
    /\ field node' "port" = parseIntString port
    /\ (forall k, k ∉ decodedKeys -> node' !! k = o !! k).
Proof.
  intros Hb Hm Hs Hdec Hmeth Hp Hp' Hh Hh' Hport.
  rewrite (decodeEnvelope_ss o env m Hb Hm Hs), Hdec.
  rewrite (decodeShadowsocks_pieces o _ _ _ _ Hmeth Hp Hp' Hh Hh' Hport).
  eexists. split; [reflexivity |].
  repeat split.
  - by rewrite !field_insert.
  - by rewrite !field_insert.
  - by rewrite !field_insert.
  - by rewrite !field_insert.
  - by rewrite !field_insert.
  - intros k Hk. unfold decodedKeys in Hk.
    rewrite !lookup_insert_ne; [done | | | | |];
      intros <-; apply Hk; set_solver.
Qed.

Lemma decodeEnvelope_shadowsocks_fields_witness :
  exists node' : jsobj,
    decodeEnvelope (JObj {[ "base64" := JStr envelopeExample ]})
    = ([], Ok (JObj node'))
    /\ field node' "type" = JStr (tagOf Shadowsocks)
    /\ field node' "method" = JStr "aes-256-gcm"
    /\ field node' "password" = JStr "secret"
    /\ field node' "hostname" = JStr "example.com"
    /\ field node' "port" = parseIntString "8388"
    /\ (forall k, k ∉ decodedKeys
                  -> node' !! k
                     = ({[ "base64" := JStr envelopeExample ]} : jsobj) !! k).
Proof.
  apply (decodeEnvelope_shadowsocks_fields
           {[ "base64" := JStr envelopeExample ]} envelopeExample
           {| scheme := "ss";
              base64String :=
                "YWVzLTI1Ni1nY206c2VjcmV0QGV4YW1wbGUuY29tOjgzODg=";
              fragment := None |}
           "aes-256-gcm" "secret" "example.com" "8388");
    vm_compute; reflexivity.
Defined.

(** The decoded payload is text: a password written with a character
    outside ASCII comes out as that character (here [U+00E9], the two
    bytes [C3 A9] of the payload), and bytes that are no UTF-8 come out as
    [U+FFFD]. *)
Example decodeEnvelope_password_outside_ascii :
  Base64_decode "YWVzLTI1Ni1nY206c8OpY3JldEBleGFtcGxlLmNvbTo4Mzg4"
  = "aes-256-gcm:s" +:+ String "195" (String "169" "cret@example.com:8388")
  /\ decodedFields
       <$> (decodeEnvelope
              (JObj {[ "base64" :=
                         JStr "ss://YWVzLTI1Ni1nY206c8OpY3JldEBleGFtcGxlLmNvbTo4Mzg4" ]})).2
     = Ok (JStr "aes-256-gcm",
           JStr ("s" +:+ String "195" (String "169" "cret")),
           JStr "example.com", JNum 8388)
  /\ Base64_decode "/w==" = replacementCharacter
  /\ Base64_decode "YcOp" = "a" +:+ String "195" (String "169" "")
  /\ Base64_decode "YcM=" = "a" +:+ replacementCharacter.
Proof. repeat split; vm_compute; reflexivity. Qed.

(** [parseInt] skips the white space of the language in front of the
    digits, the no-break space [U+00A0] included: the payload [m:p@h:]
    followed by [U+00A0] and [80] gives the port 80. *)
Example decodeEnvelope_port_after_no_break_space :
  Base64_decode "bTpwQGg6wqA4MA=="
  = "m:p@h:" +:+ String "194" (String "160" "80")
  /\ decodedFields
       <$> (decodeEnvelope (JObj {[ "base64" := JStr "ss://bTpwQGg6wqA4MA==" ]})).2
     = Ok (JStr "m", JStr "p", JStr "h", JNum 80).
Proof. repeat split; vm_compute; reflexivity. Qed.

(** The number [parseInt] returns is a double: past [2 ^ 53] the value of
    the digits is rounded to the nearest one, ties to the even mantissa, a
    run of digits worth [2 ^ 1024] or more gives [Infinity], and [-0] is
    the negative zero. *)
Example parseInt_nearest_double :
  parseIntString "9007199254740992" = JNum 9007199254740992
  /\ parseIntString "9007199254740993" = JNum 9007199254740992
  /\ parseIntString "9007199254740995" = JNum 9007199254740996
  /\ parseIntString "-9007199254740993" = JNum (- 9007199254740992)
  /\ parseIntString "-0" = JNegZero
  /\ parseIntString ("1" +:+ string_of_list_ascii (repeat "0"%char 309))
     = JInfinity false
  /\ parseIntString ("-1" +:+ string_of_list_ascii (repeat "0"%char 309))
     = JInfinity true
  /\ parseIntString ("1" +:+ string_of_list_ascii (repeat "0"%char 308))
     = JNum
         (10 ^ 308 + 1097906362944045541740492309677311846336810682903157585404911491537163328978494688899061249669721172515611590283743140088328307009198146046031271664502933027185697489699588559043338384466165001178426897626212945177628091195786707458122783970171784415105291802893207873272974885715430223118336).
Proof. repeat split; vm_compute; reflexivity. Qed.

(** ** The guard on an object *)

Lemma deprecatedGuard_obj (o : jsobj) :
  deprecatedGuard (JObj o)
  = if truthy (field o "udp-relay")
    then Err (DeprecatedField "udp-relay" "udpRelay")
    else if truthy (field o "obfs-host")
    then Err (DeprecatedField "obfs-host" "obfsHost")
    else if truthy (field o "obfs-uri")
    then Err (DeprecatedField "obfs-uri" "obfsUri")
    else Ok ().
Proof.
  unfold deprecatedGuard, guardField. rewrite !getProp_obj. simpl.
  destruct (truthy (field o "udp-relay")); [done |]. simpl.
  destruct (truthy (field o "obfs-host")); [done |]. simpl.
  by destruct (truthy (field o "obfs-uri")).
Qed.

Lemma deprecatedGuard_pass (o : jsobj) :
  (forall old new, (old, new) ∈ deprecatedFields ->
                   truthy (field o old) = false) ->
  deprecatedGuard (JObj o) = Ok ().
Proof.
  intros H. rewrite deprecatedGuard_obj.
  rewrite (H "udp-relay" "udpRelay"), (H "obfs-host" "obfsHost"),
    (H "obfs-uri" "obfsUri"); [done | | |];
    unfold deprecatedFields; set_solver.
Qed.

Lemma deprecatedFields_cases (old new : string) :
  (old, new) ∈ deprecatedFields ->
  old = "udp-relay" \/ old = "obfs-host" \/ old = "obfs-uri".
Proof.
  unfold deprecatedFields. rewrite !elem_of_cons, elem_of_nil.
  intros [[= -> ->] | [[= -> ->] | [[= -> ->] | []]]]; auto.
Qed.

Lemma deprecated_not_decoded (old new : string) :
  (old, new) ∈ deprecatedFields -> old ∉ decodedKeys.
Proof.
  intros Hin Hk. unfold decodedKeys in Hk.
  rewrite !elem_of_cons, elem_of_nil in Hk.
  destruct (deprecatedFields_cases _ _ Hin) as [-> | [-> | ->]];
    by destruct Hk as [? | [? | [? | [? | [? | []]]]]].
Qed.

(** ** Whole retrievals *)

Section Retrieval.

Context {Params : Type}.
Variable validators : NodeTypeEnum -> jsval -> result jsobj.
Variable this : CustomProvider (Params := Params).

Lemma getNodeListState_resolved (params : Params) (nodes : list jsval) :
  resolve this params = Ok nodes ->
  exists st,
    getNodeListState validators this params = Ok st
    /\ parsedNodeList st = omap (passed validators this) nodes
    /\ nodeErrors (console st) = failuresFrom validators this 0 nodes.
Proof.
  intros Hres. unfold getNodeListState. rewrite Hres. simpl.
  eexists. split; [reflexivity |].
  by rewrite forEach_parsed, forEach_errors.
Qed.

Lemma getNodeList_resolved (params : Params) (nodes : list jsval) :
  resolve this params = Ok nodes ->
  getNodeList validators this params
  = Ok (omap (passed validators this) nodes).
Proof.
  intros Hres. unfold getNodeList.
  destruct (getNodeListState_resolved params nodes Hres)
    as (st & -> & <- & _).
  done.
Qed.

(** A node whose [try] block throws leaves no entry in the result, whatever
    stands before and after it, and is reported at its index. *)
Lemma failed_node_dropped (params : Params) (before after : list jsval)
  (node : jsval) (err : error) :
  resolve this params = Ok (before ++ node :: after) ->
  outcome validators this node = Err err ->
  exists st,
    getNodeListState validators this params = Ok st
    /\ parsedNodeList st
       = omap (passed validators this) before
         ++ omap (passed validators this) after
    /\ (length before, err) ∈ nodeErrors (console st).
Proof.
  intros Hres Hout.
  destruct (getNodeListState_resolved params _ Hres)
    as (st & Hst & Hparsed & Herr).
  exists st. split; [done |]. split.
  - rewrite Hparsed, omap_app. simpl. unfold passed at 2.
    by rewrite Hout.
  - rewrite Herr. apply failuresFrom_lookup.
    exists (length before), node. split; [lia |]. split; [|done].
    by rewrite list_lookup_middle.
Qed.

Lemma fillUnderlyingProxy_other (n : jsobj) (k : string) :
  k ≠ "underlyingProxy" ->
  field (fillUnderlyingProxy this n) k = field n k.
Proof.
  intros Hk. unfold fillUnderlyingProxy.
  destruct (_ && _); [|done]. by rewrite field_insert_ne.
Qed.

Lemma decodeEnvelope_example (o : jsobj) :
  field o "base64" = JStr envelopeExample ->
  decodeEnvelope (JObj o) = ([], Ok (JObj (exampleDecoded o))).
Proof.
  intros Hb.
  rewrite (decodeEnvelope_ss o envelopeExample
             {| scheme := "ss";
                base64String :=
                  "YWVzLTI1Ni1nY206c2VjcmV0QGV4YW1wbGUuY29tOjgzODg=";
                fragment := None |} Hb eq_refl eq_refl).
  f_equal;
    exact (decodeShadowsocks_pieces o "aes-256-gcm" "secret" "example.com"
             "8388" eq_refl eq_refl eq_refl eq_refl eq_refl eq_refl).
Qed.

Lemma exampleDecoded_other (o : jsobj) (k : string) :
  k ∉ decodedKeys -> field (exampleDecoded o) k = field o k.
Proof.
  intros Hk. unfold exampleDecoded, decodedKeys in *.
  rewrite !field_insert_ne; [done | | | | |];
    intros <-; apply Hk; set_solver.
Qed.

(** C3.  A node whose envelope is [ss://] followed by the base64 text of
    [aes-256-gcm:secret@example.com:8388] reaches the Shadowsocks
    validator with these four fields and the Shadowsocks tag; when no
    deprecated field stops it and the validator accepts it, keeping the
    five properties, the retrieval yields that one Shadowsocks node, with
    method [aes-256-gcm], password [secret], host [example.com] and port
    8388. *)
Theorem envelope_example_retrieval (params : Params) (o n0 : jsobj) :
  resolve this params = Ok [JObj o] ->
  field o "base64" = JStr envelopeExample ->
  (forall old new, (old, new) ∈ deprecatedFields ->
                   truthy (field o old) = false) ->
  validators Shadowsocks (JObj (exampleDecoded o)) = Ok n0 ->
  (forall k, k ∈ decodedKeys -> field n0 k = field (exampleDecoded o) k) ->
  Base64_decode "YWVzLTI1Ni1nY206c2VjcmV0QGV4YW1wbGUuY29tOjgzODg="
  = "aes-256-gcm:secret@example.com:8388"
  /\ exists n,
      getNodeList validators this params = Ok [n]
      /\ field n "type" = JStr (tagOf Shadowsocks)
      /\ field n "method" = JStr "aes-256-gcm"
      /\ field n "password" = JStr "secret"
      /\ field n "hostname" = JStr "example.com"
      /\ field n "port" = JNum 8388.
Proof.
  intros Hres Hb Hdep Hval Hkeep.
  split; [by vm_compute |].
  assert (outcome validators this (JObj o)
          = Ok (fillUnderlyingProxy this n0)) as Hout.
  { unfold outcome, processNode.
    rewrite (decodeEnvelope_example o Hb). simpl.
    unfold validateNode. rewrite getProp_obj. simpl.
    rewrite deprecatedGuard_pass.
    2:{ intros old new Hin. rewrite exampleDecoded_other.
        - by eapply Hdep.
        - by eapply deprecated_not_decoded. }
    simpl. unfold dispatch.
    replace (field (exampleDecoded o) "type") with (JStr "shadowsocks")
      by (unfold exampleDecoded; by rewrite !field_insert).
    change (switchType (JStr "shadowsocks")) with (Some Shadowsocks).
    cbv beta iota. rewrite Hval. simpl.
    rewrite fillUnderlyingProxy_other by done.
    rewrite (Hkeep "type") by (unfold decodedKeys; set_solver).
    replace (field (exampleDecoded o) "type") with (JStr "shadowsocks")
      by (unfold exampleDecoded; by rewrite !field_insert).
    done. }
  exists (fillUnderlyingProxy this n0). split.
  - rewrite (getNodeList_resolved params _ Hres). simpl.
    unfold passed. by rewrite Hout.
  - repeat split; rewrite fillUnderlyingProxy_other by done.
    + rewrite Hkeep by (unfold decodedKeys; set_solver).
      unfold exampleDecoded. by rewrite !field_insert.
    + rewrite Hkeep by (unfold decodedKeys; set_solver).
      unfold exampleDecoded. by rewrite !field_insert.
    + rewrite Hkeep by (unfold decodedKeys; set_solver).
      unfold exampleDecoded. by rewrite !field_insert.
    + rewrite Hkeep by (unfold decodedKeys; set_solver).
      unfold exampleDecoded. by rewrite !field_insert.
    + rewrite Hkeep by (unfold decodedKeys; set_solver).
      unfold exampleDecoded. by rewrite !field_insert.
Qed.

End Retrieval.

Lemma envelope_example_retrieval_witness :
  Base64_decode "YWVzLTI1Ni1nY206c2VjcmV0QGV4YW1wbGUuY29tOjgzODg="
  = "aes-256-gcm:secret@example.com:8388"
  /\ exists n,
      getNodeList passthroughValidators
        (staticProvider [JObj {[ "base64" := JStr envelopeExample ]}] None) tt
      = Ok [n]
      /\ field n "type" = JStr (tagOf Shadowsocks)
      /\ field n "method" = JStr "aes-256-gcm"
      /\ field n "password" = JStr "secret"
      /\ field n "hostname" = JStr "example.com"
      /\ field n "port" = JNum 8388.
Proof.
  apply (envelope_example_retrieval passthroughValidators
           (staticProvider [JObj {[ "base64" := JStr envelopeExample ]}] None)
           tt {[ "base64" := JStr envelopeExample ]}
           (exampleDecoded {[ "base64" := JStr envelopeExample ]})).
  - reflexivity.
  - reflexivity.
  - intros old new Hin.
    destruct (deprecatedFields_cases old new Hin) as [-> | [-> | ->]];
      reflexivity.
  - vm_compute; reflexivity.
  - reflexivity.
Defined.

(** ** The arms of the decoder *)

Lemma decodeEnvelope_never_warns (node : jsval) :
  LogUnsupportedScheme ∉ (decodeEnvelope node).1.
Proof.
  unfold decodeEnvelope.
  destruct (getProp node "base64") as [b|]; simpl; [|by intros ?%elem_of_nil].
  destruct (truthy b); simpl; [|by intros ?%elem_of_nil].
  destruct b; simpl; try by intros ?%elem_of_nil.
  destruct (matchBase64Pattern s) as [m|] eqn:Hm; simpl.
  - destruct (matchBase64Pattern_scheme s m Hm) as [-> | ->]; simpl;
      by intros ?%elem_of_nil.
  - rewrite elem_of_cons, elem_of_nil. by intros [? | []].
Qed.

(** C10.  The scheme captured from an envelope that matches the pattern is
    [ss] or [vmess]; [nodeTypeMap] sends it to the Shadowsocks or to the
    Vmess type, so [switch (nodeType)] runs one of its two [case] arms and
    never its [default]: the warning of that arm is not written for any node
    carrying the envelope. *)
Theorem matched_envelope_never_default (s : string) (m : envelopeMatch) :
  matchBase64Pattern s = Some m ->
  (scheme m = "ss" \/ scheme m = "vmess")
  /\ (nodeTypeMap !! scheme m = Some Shadowsocks
      \/ nodeTypeMap !! scheme m = Some Vmess)
  /\ switchNodeType (nodeTypeMap !! scheme m) ≠ ArmDefault
  /\ (forall node, getProp node "base64" = Ok (JStr s) ->
                   LogUnsupportedScheme ∉ (decodeEnvelope node).1).
Proof.
  intros Hm.
  destruct (matchBase64Pattern_scheme s m Hm) as [Hs | Hs]; rewrite Hs.
  - repeat split; [by left | by left | done |].
    intros node _. apply decodeEnvelope_never_warns.
  - repeat split; [by right | by right | done |].
    intros node _. apply decodeEnvelope_never_warns.
Qed.

Lemma matched_envelope_never_default_witness :
  (scheme {| scheme := "ss";
             base64String :=
               "YWVzLTI1Ni1nY206c2VjcmV0QGV4YW1wbGUuY29tOjgzODg=";
             fragment := None |} = "ss"
   \/ scheme {| scheme := "ss";
                base64String :=
                  "YWVzLTI1Ni1nY206c2VjcmV0QGV4YW1wbGUuY29tOjgzODg=";
                fragment := None |} = "vmess")
  /\ (nodeTypeMap !! "ss" = Some Shadowsocks
      \/ nodeTypeMap !! "ss" = Some Vmess)
  /\ switchNodeType (nodeTypeMap !! "ss") ≠ ArmDefault
  /\ (forall node, getProp node "base64" = Ok (JStr envelopeExample) ->
                   LogUnsupportedScheme ∉ (decodeEnvelope node).1).
Proof.
  apply (matched_envelope_never_default envelopeExample
           {| scheme := "ss";
              base64String :=
                "YWVzLTI1Ni1nY206c2VjcmV0QGV4YW1wbGUuY29tOjgzODg=";
              fragment := None |}).
  vm_compute; reflexivity.
Defined.

(** A node that leaves the decoder is the object that entered it, or that
    object with the five decoded properties written over. *)
Lemma decodeEnvelope_obj_ok (o : jsobj) (written : list logEntry)
  (v : jsval) :
  decodeEnvelope (JObj o) = (written, Ok v) ->
  exists o', v = JObj o'
             /\ forall k, k ∉ decodedKeys -> field o' k = field o k.
Proof.
  unfold decodeEnvelope. rewrite getProp_obj.
  destruct (truthy (field o "base64")).
  2:{ intros [= _ <-]. by exists o. }
  destruct (field o "base64"); try done.
  destruct (matchBase64Pattern s) as [m|]; [|done].
  destruct (switchNodeType _).
  - unfold decodeShadowsocks.
    destruct (element (split ":" _) 1); try done.
    intros [= _ <-]. eexists. split; [reflexivity |].
    intros k Hk. unfold decodedKeys in Hk.
    rewrite !elem_of_cons, elem_of_nil in Hk.
    rewrite !field_insert_ne; [done | | | | |]; intros <-; tauto.
  - intros [= _ <-]. by exists o.
  - intros [= _ <-]. by exists o.
Qed.

(** ** Nodes the pipeline refuses *)

Section Refusals.

Context {Params : Type}.
Variable validators : NodeTypeEnum -> jsval -> result jsobj.
Variable this : CustomProvider (Params := Params).

(** C9, amended.  A node whose [base64] property holds a non-empty string
    that does not match the pattern makes the decoder write its warning and
    throw the format error: the node adds nothing to the result, and the
    failure is reported at its index with that error. *)
Theorem invalid_envelope_fails (params : Params)
  (before after : list jsval) (o : jsobj) (s : string) :
  resolve this params = Ok (before ++ JObj o :: after) ->
  field o "base64" = JStr s ->
  s ≠ "" ->
  matchBase64Pattern s = None ->
  processNode validators this (JObj o)
  = ([LogInvalidBase64], Err InvalidBase64Format)
  /\ exists st,
      getNodeListState validators this params = Ok st
      /\ parsedNodeList st
         = omap (passed validators this) before
           ++ omap (passed validators this) after
      /\ (length before, InvalidBase64Format) ∈ nodeErrors (console st).
Proof.
  intros Hres Hb Hne Hm.
  assert (processNode validators this (JObj o)
          = ([LogInvalidBase64], Err InvalidBase64Format)) as Hproc.
  { unfold processNode, decodeEnvelope. rewrite getProp_obj, Hb.
    destruct s; [done |]. simpl truthy. cbv beta iota.
    by rewrite Hm. }
  split; [done |].
  apply (failed_node_dropped validators this params before after
           (JObj o) InvalidBase64Format Hres).
  unfold outcome. by rewrite Hproc.
Qed.

(** The guard on a node that left the decoder: it throws for the first of
    the three deprecated names, in the order of the source, whose value is
    truthy. *)
Lemma deprecatedGuard_truthy (o : jsobj) (old new : string) :
  (old, new) ∈ deprecatedFields ->
  truthy (field o old) = true ->
  exists old' new',
    (old', new') ∈ deprecatedFields
    /\ truthy (field o old') = true
    /\ deprecatedGuard (JObj o) = Err (DeprecatedField old' new').
Proof.
  intros Hin Htrue. rewrite deprecatedGuard_obj.
  destruct (truthy (field o "udp-relay")) eqn:H1.
  { exists "udp-relay", "udpRelay". unfold deprecatedFields.
    rewrite !elem_of_cons. auto. }
  destruct (truthy (field o "obfs-host")) eqn:H2.
  { exists "obfs-host", "obfsHost". unfold deprecatedFields.
    rewrite !elem_of_cons. auto. }
  destruct (truthy (field o "obfs-uri")) eqn:H3.
  { exists "obfs-uri", "obfsUri". unfold deprecatedFields.
    rewrite !elem_of_cons. auto 6. }
  destruct (deprecatedFields_cases _ _ Hin) as [-> | [-> | ->]];
    congruence.
Qed.

(** C4, amended.  A node on which one of [udp-relay], [obfs-host],
    [obfs-uri] holds a truthy value never reaches the validators: its
    [try] block throws, the node adds nothing to the result and the
    failure is reported at its index.  Unless the decoder has thrown
    before, the error is the one of the guard: it names the first of the
    three, in the order [udp-relay], [obfs-host], [obfs-uri], that holds a
    truthy value, and its replacement.  A field that holds a falsy value is
    never named, and a node on which the three hold falsy values, or none,
    passes the guard: the rest of the [try] block decides. *)
Theorem deprecated_field_fails (params : Params)
  (before after : list jsval) (o : jsobj) :
  resolve this params = Ok (before ++ JObj o :: after) ->
  (forall old new,
     (old, new) ∈ deprecatedFields ->
     truthy (field o old) = true ->
     exists err,
       outcome validators this (JObj o) = Err err
       /\ (is_ok (decodeEnvelope (JObj o)).2 = true ->
           err = (if truthy (field o "udp-relay")
                  then DeprecatedField "udp-relay" "udpRelay"
                  else if truthy (field o "obfs-host")
                  then DeprecatedField "obfs-host" "obfsHost"
                  else DeprecatedField "obfs-uri" "obfsUri"))
       /\ (forall old' new',
             err = DeprecatedField old' new' ->
             (old', new') ∈ deprecatedFields
             /\ truthy (field o old') = true)
       /\ exists st,
           getNodeListState validators this params = Ok st
           /\ parsedNodeList st
              = omap (passed validators this) before
                ++ omap (passed validators this) after
           /\ (length before, err) ∈ nodeErrors (console st))
  /\ ((forall old new,
         (old, new) ∈ deprecatedFields -> truthy (field o old) = false) ->
      forall written decoded,
        decodeEnvelope (JObj o) = (written, Ok decoded) ->
        deprecatedGuard decoded = Ok ()
        /\ processNode validators this (JObj o)
           = (written, afterGuard validators this decoded)).
Proof.
  intros Hres. split.
  - intros old new Hin Htrue.
    assert (exists err,
              outcome validators this (JObj o) = Err err
              /\ (is_ok (decodeEnvelope (JObj o)).2 = true ->
                  err = (if truthy (field o "udp-relay")
                         then DeprecatedField "udp-relay" "udpRelay"
                         else if truthy (field o "obfs-host")
                         then DeprecatedField "obfs-host" "obfsHost"
                         else DeprecatedField "obfs-uri" "obfsUri"))
              /\ (forall old' new',
                    err = DeprecatedField old' new' ->
                    (old', new') ∈ deprecatedFields
                    /\ truthy (field o old') = true))
      as (err & Hout & Hname & Hnamed).
    { unfold outcome, processNode.
      destruct (decodeEnvelope (JObj o)) as [written [v|e]] eqn:Hdec.
      - destruct (decodeEnvelope_obj_ok o written v Hdec)
          as (o' & -> & Hsame).
        assert (forall old0 new0, (old0, new0) ∈ deprecatedFields ->
                                  field o' old0 = field o old0) as Hdep.
        { intros old0 new0 Hin0. apply Hsame.
          by eapply deprecated_not_decoded. }
        assert (deprecatedGuard (JObj o')
                = Err (if truthy (field o "udp-relay")
                       then DeprecatedField "udp-relay" "udpRelay"
                       else if truthy (field o "obfs-host")
                       then DeprecatedField "obfs-host" "obfsHost"
                       else DeprecatedField "obfs-uri" "obfsUri")) as Hguard.
        { rewrite deprecatedGuard_obj.
          rewrite (Hdep "udp-relay" "udpRelay"), (Hdep "obfs-host" "obfsHost"),
            (Hdep "obfs-uri" "obfsUri");
            [| unfold deprecatedFields; rewrite !elem_of_cons; auto ..].
          destruct (truthy (field o "udp-relay")) eqn:H1; [done |].
          destruct (truthy (field o "obfs-host")) eqn:H2; [done |].
          destruct (truthy (field o "obfs-uri")) eqn:H3; [done |].
          destruct (deprecatedFields_cases _ _ Hin) as [-> | [-> | ->]];
            congruence. }
        eexists. simpl. split; [|split].
        + unfold validateNode. rewrite getProp_obj. simpl.
          by rewrite Hguard.
        + done.
        + intros old' new'.
          destruct (truthy (field o "udp-relay")) eqn:H1.
          { intros [= <- <-]. split; [|done].
            unfold deprecatedFields. rewrite !elem_of_cons. auto. }
          destruct (truthy (field o "obfs-host")) eqn:H2.
          { intros [= <- <-]. split; [|done].
            unfold deprecatedFields. rewrite !elem_of_cons. auto. }
          intros [= <- <-]. split.
          { unfold deprecatedFields. rewrite !elem_of_cons. auto 6. }
          destruct (deprecatedFields_cases _ _ Hin) as [-> | [-> | ->]];
            congruence.
      - exists e. simpl. split; [done |]. split; [done |].
        revert Hdec. unfold decodeEnvelope. rewrite getProp_obj.
        destruct (truthy (field o "base64")); [|done].
        destruct (field o "base64"); try (by intros [= _ <-]).
        destruct (matchBase64Pattern s) as [m|]; [|by intros [= _ <-]].
        destruct (switchNodeType _); try done.
        unfold decodeShadowsocks.
        destruct (element (split ":" _) 1); try done;
          by intros [= _ <-]. }
    exists err. split; [done |]. split; [done |]. split; [done |].
    by apply (failed_node_dropped validators this params before after
                (JObj o) err Hres).
  - intros Hfalse written decoded Hdec.
    destruct (decodeEnvelope_obj_ok o written decoded Hdec)
      as (o' & -> & Hsame).
    assert (deprecatedGuard (JObj o') = Ok ()) as Hguard.
    { apply deprecatedGuard_pass. intros old new Hin.
      rewrite Hsame; [by eapply Hfalse |].
      by eapply deprecated_not_decoded. }
    split; [done |].
    unfold processNode. rewrite Hdec. simpl.
    unfold validateNode, afterGuard. rewrite Hguard.
    by destruct (getProp (JObj o') "type").
Qed.

End Refusals.

(** C4, as stated, fails: the guard tests the value of a deprecated field,
    not its presence.  A node on which [udp-relay] is [false] passes the
    guard and goes to the validator of its type; with schemas that keep the
    properties of the node it comes out in the result, and nothing is
    reported. *)
Lemma deprecated_field_false_passes :
  nodeUdpRelayFalse !! "udp-relay" = Some (JBool false)
  /\ decodeEnvelope (JObj nodeUdpRelayFalse) = ([], Ok (JObj nodeUdpRelayFalse))
  /\ deprecatedGuard (JObj nodeUdpRelayFalse) = Ok ()
  /\ getNodeListState passthroughValidators
       (staticProvider [JObj nodeUdpRelayFalse] None) tt
     = Ok {| parsedNodeList := [nodeUdpRelayFalse]; console := [] |}.
Proof. repeat split; vm_compute; reflexivity. Qed.

Lemma deprecated_field_fails_witness :
  exists err,
    outcome passthroughValidators
      (staticProvider [JObj nodeUdpRelayFalse; JObj nodeUdpRelayTrue] None)
      (JObj nodeUdpRelayTrue) = Err err
    /\ (is_ok (decodeEnvelope (JObj nodeUdpRelayTrue)).2 = true ->
        err = DeprecatedField "udp-relay" "udpRelay")
    /\ (forall old' new',
          err = DeprecatedField old' new' ->
          (old', new') ∈ deprecatedFields
          /\ truthy (field nodeUdpRelayTrue old') = true)
    /\ exists st,
        getNodeListState passthroughValidators
          (staticProvider [JObj nodeUdpRelayFalse; JObj nodeUdpRelayTrue] None)
          tt = Ok st
        /\ parsedNodeList st
           = omap (passed passthroughValidators
                     (staticProvider
                        [JObj nodeUdpRelayFalse; JObj nodeUdpRelayTrue] None))
               [JObj nodeUdpRelayFalse]
             ++ omap (passed passthroughValidators
                        (staticProvider
                           [JObj nodeUdpRelayFalse; JObj nodeUdpRelayTrue]
                           None)) []
        /\ (length [JObj nodeUdpRelayFalse], err) ∈ nodeErrors (console st).
Proof.
  apply (proj1 (deprecated_field_fails passthroughValidators
                  (staticProvider
                     [JObj nodeUdpRelayFalse; JObj nodeUdpRelayTrue] None)
                  tt [JObj nodeUdpRelayFalse] [] nodeUdpRelayTrue eq_refl)
           "udp-relay" "udpRelay").
  - unfold deprecatedFields. apply elem_of_cons. by left.
  - reflexivity.
Defined.

(** C9, as stated, fails: the decoder runs only when the value of [base64]
    is truthy.  The empty string does not match the pattern, yet a node
    carrying it skips the decoder and is processed as if it had no envelope;
    with schemas that keep the properties of the node it comes out in the
    result, and nothing is reported. *)
Lemma empty_envelope_not_rejected :
  nodeEmptyEnvelope !! "base64" = Some (JStr "")
  /\ matchBase64Pattern "" = None
  /\ decodeEnvelope (JObj nodeEmptyEnvelope) = ([], Ok (JObj nodeEmptyEnvelope))
  /\ getNodeListState passthroughValidators
       (staticProvider [JObj nodeEmptyEnvelope] None) tt
     = Ok {| parsedNodeList := [nodeEmptyEnvelope]; console := [] |}.
Proof. repeat split; vm_compute; reflexivity. Qed.

Lemma invalid_envelope_fails_witness :
  processNode passthroughValidators
    (staticProvider [JObj nodeEmptyEnvelope; JObj nodeBadEnvelope] None)
    (JObj nodeBadEnvelope)
  = ([LogInvalidBase64], Err InvalidBase64Format)
  /\ exists st,
      getNodeListState passthroughValidators
        (staticProvider [JObj nodeEmptyEnvelope; JObj nodeBadEnvelope] None)
        tt = Ok st
      /\ parsedNodeList st
         = omap (passed passthroughValidators
                   (staticProvider
                      [JObj nodeEmptyEnvelope; JObj nodeBadEnvelope] None))
             [JObj nodeEmptyEnvelope]
           ++ omap (passed passthroughValidators
                      (staticProvider
                         [JObj nodeEmptyEnvelope; JObj nodeBadEnvelope] None))
                []
      /\ (length [JObj nodeEmptyEnvelope], InvalidBase64Format)
         ∈ nodeErrors (console st).
Proof.
  apply (invalid_envelope_fails passthroughValidators
           (staticProvider [JObj nodeEmptyEnvelope; JObj nodeBadEnvelope] None)
           tt [JObj nodeEmptyEnvelope] [] nodeBadEnvelope "ss:/YQ==").
  - reflexivity.
  - reflexivity.
  - discriminate.
  - reflexivity.
Defined.

(** ** The vmess post-processor *)

Lemma vmessSni_sni (n : jsobj) :
  field (vmessSni n) "sni"
  = if truthy (field n "host") then field n "host" else field n "sni".
Proof.
  unfold vmessSni. destruct (truthy (field n "host")); [|done].
  by rewrite field_insert_eq.
Qed.

Lemma vmessSni_other (n : jsobj) (k : string) :
  k ≠ "sni" -> field (vmessSni n) k = field n k.
Proof.
  intros Hk. unfold vmessSni. destruct (truthy _); [|done].
  by rewrite field_insert_ne.
Qed.

Lemma vmessWsHeaders_other (n n1 : jsobj) (k : string) :
  vmessWsHeaders n = Ok n1 -> k ≠ "wsOpts" -> field n1 k = field n k.
Proof.
  unfold vmessWsHeaders. intros H Hk.
  destruct (truthy (field n "wsHeaders")); [|by injection H as <-].
  destruct (truthy (field n "wsOpts")) eqn:Hopts; simpl in H.
  - destruct (getProp_truthy _ "headers" Hopts) as [x Hx].
    rewrite Hx in H. simpl in H.
    destruct (truthy x); [done |].
    destruct (field n "wsOpts"); try done.
    injection H as <-. by rewrite field_insert_ne.
  - injection H as <-. by rewrite field_insert_ne.
Qed.

Lemma pathCheck_falsy (n : jsobj) (net opts : string) :
  truthy (field n "path") = false -> pathCheck n net opts = Ok ().
Proof.
  intros H. unfold pathCheck. rewrite H.
  destruct (field n "network"); try done. by rewrite andb_false_r.
Qed.

Lemma pathChecks_falsy (n : jsobj) :
  truthy (field n "path") = false -> pathChecks n = Ok n.
Proof.
  intros H. unfold pathChecks. by rewrite !pathCheck_falsy.
Qed.

Lemma pathChecks_ok (n n' : jsobj) : pathChecks n = Ok n' -> n' = n.
Proof.
  unfold pathChecks.
  destruct (pathCheck n "ws" "wsOpts"); [|done]. simpl.
  destruct (pathCheck n "h2" "h2Opts"); [|done]. simpl.
  destruct (pathCheck n "http" "httpOpts"); [|done]. simpl.
  by intros [= <-].
Qed.

Lemma pathChecks_truthy (n : jsobj) (net : string) :
  net ∈ pathTransports ->
  field n "network" = JStr net ->
  truthy (field n "path") = true ->
  pathChecks n = Err (MovePathTo (transportOptions net)).
Proof.
  unfold pathTransports. rewrite !elem_of_cons, elem_of_nil.
  intros Hnet Hn Hp. unfold pathChecks, pathCheck. rewrite Hn, Hp.
  by destruct Hnet as [-> | [-> | [-> | []]]].
Qed.

Lemma prepareVmessNodeConfig_other (n n' : jsobj) (k : string) :
  prepareVmessNodeConfig n = Ok n' ->
  k ≠ "sni" -> k ≠ "wsOpts" -> field n' k = field n k.
Proof.
  unfold prepareVmessNodeConfig. intros H Hsni Hopts.
  destruct (vmessWsHeaders (vmessSni n)) as [n1|] eqn:H1; [|done].
  simpl in H. apply pathChecks_ok in H as ->.
  by rewrite (vmessWsHeaders_other _ _ k H1), vmessSni_other.
Qed.

(** C5, as stated, fails: the copy of [host] into [sni] does not look at
    [sni].  A node that carries the server name [b.example.com] and the host
    [a.example.com] comes out with the server name [a.example.com]. *)
Lemma explicit_sni_overwritten :
  field nodeHostAndSni "sni" = JStr "b.example.com"
  /\ field nodeHostAndSni "host" = JStr "a.example.com"
  /\ prepareVmessNodeConfig nodeHostAndSni
     = Ok (<["sni" := JStr "a.example.com"]> nodeHostAndSni).
Proof. repeat split; vm_compute; reflexivity. Qed.

(** C5, amended.  In the vmess post-processing a [host] that is truthy (a
    non-empty string) is copied into [sni], whether or not the node carries
    an [sni] of its own; with no [host], or an empty one, [sni] is left as it
    is.  The later rules do not touch [sni], so this is the [sni] of every
    node that leaves the post-processor. *)
Theorem host_copied_into_sni (n n' : jsobj) :
  prepareVmessNodeConfig n = Ok n' ->
  field n' "sni"
  = (if truthy (field n "host") then field n "host" else field n "sni")
  /\ field (vmessSni n) "sni" = field n' "sni".
Proof.
  unfold prepareVmessNodeConfig. intros H.
  destruct (vmessWsHeaders (vmessSni n)) as [n1|] eqn:H1; [|done].
  simpl in H. apply pathChecks_ok in H as ->.
  rewrite (vmessWsHeaders_other _ _ "sni" H1) by done.
  by rewrite vmessSni_sni.
Qed.

Lemma host_copied_into_sni_witness :
  field (<["sni" := JStr "a.example.com"]> nodeHostAndSni) "sni"
  = (if truthy (field nodeHostAndSni "host")
     then field nodeHostAndSni "host" else field nodeHostAndSni "sni")
  /\ field (vmessSni nodeHostAndSni) "sni"
     = field (<["sni" := JStr "a.example.com"]> nodeHostAndSni) "sni".
Proof.
  apply (host_copied_into_sni nodeHostAndSni
           (<["sni" := JStr "a.example.com"]> nodeHostAndSni)).
  vm_compute; reflexivity.
Defined.

(** ** Post-processing inside a retrieval *)

Section PostProcessing.

Context {Params : Type}.
Variable validators : NodeTypeEnum -> jsval -> result jsobj.
Variable this : CustomProvider (Params := Params).

Lemma outcome_validatedNode (node : jsval) :
  outcome validators this node
  = parsedNode ← validatedNode validators this node;
    if isTag (field parsedNode "type") Vmess
    then prepareVmessNodeConfig parsedNode
    else Ok parsedNode.
Proof.
  unfold outcome, processNode, validatedNode, validateNode.
  destruct (decodeEnvelope node) as [written [decoded|e]]; simpl; [|done].
  destruct (getProp decoded "type") as [type|]; simpl; [|done].
  destruct (deprecatedGuard decoded); simpl; [|done].
  by destruct (dispatch validators type decoded).
Qed.

(** A vmess node the post-processor refuses adds nothing to the result and
    is reported at its index with the error of the post-processor. *)
Lemma refused_vmess_dropped (params : Params) (before after : list jsval)
  (node : jsval) (n : jsobj) (err : error) :
  resolve this params = Ok (before ++ node :: after) ->
  validatedNode validators this node = Ok n ->
  isTag (field n "type") Vmess = true ->
  prepareVmessNodeConfig n = Err err ->
  exists st,
    getNodeListState validators this params = Ok st
    /\ parsedNodeList st
       = omap (passed validators this) before
         ++ omap (passed validators this) after
    /\ (length before, err) ∈ nodeErrors (console st).
Proof.
  intros Hres Hval Htag Herr.
  apply (failed_node_dropped validators this params before after
           node err Hres).
  rewrite outcome_validatedNode, Hval. simpl. by rewrite Htag.
Qed.

(** C6.  For a vmess node whose [wsHeaders] is an object: with no
    [wsOpts], rule 2 builds one holding these headers and the path of the
    node, or [/] when the node has no path; with a [wsOpts] object that
    has headers of its own, the post-processing throws the conflict error,
    so that the node adds nothing to the result and the conflict is
    reported at its index; with a [wsOpts] object without headers, the
    headers are written into it and the rest of the object is kept.  Then
    the checks on the transport run on the node so changed. *)
Theorem wsHeaders_into_wsOpts (n : jsobj) (h : jsobj) :
  field n "wsHeaders" = JObj h ->
  (field n "wsOpts" = JUndefined ->
   exists path,
     path = js_or (field n "path") (JStr "/")
     /\ (field n "path" = JUndefined -> path = JStr "/")
     /\ (truthy (field n "path") = true -> path = field n "path")
     /\ vmessWsHeaders n
        = Ok (<["wsOpts" :=
                  JObj {[ "headers" := JObj h; "path" := path ]}]> n)
     /\ prepareVmessNodeConfig n
        = pathChecks
            (<["wsOpts" := JObj {[ "headers" := JObj h; "path" := path ]}]>
               (vmessSni n)))
  /\ (forall opts h',
        field n "wsOpts" = JObj opts ->
        field opts "headers" = JObj h' ->
        vmessWsHeaders n = Err WsHeadersConflict
        /\ prepareVmessNodeConfig n = Err WsHeadersConflict
        /\ forall params before after node,
            resolve this params = Ok (before ++ node :: after) ->
            validatedNode validators this node = Ok n ->
            isTag (field n "type") Vmess = true ->
            exists st,
              getNodeListState validators this params = Ok st
              /\ parsedNodeList st
                 = omap (passed validators this) before
                   ++ omap (passed validators this) after
              /\ (length before, WsHeadersConflict)
                 ∈ nodeErrors (console st))
  /\ (forall opts,
        field n "wsOpts" = JObj opts ->
        field opts "headers" = JUndefined ->
        vmessWsHeaders n
        = Ok (<["wsOpts" := JObj (<["headers" := JObj h]> opts)]> n)
        /\ prepareVmessNodeConfig n
           = pathChecks
               (<["wsOpts" := JObj (<["headers" := JObj h]> opts)]>
                  (vmessSni n))).
Proof.
  intros Hh.
  assert (field (vmessSni n) "wsHeaders" = JObj h) as Hh'
    by (by rewrite vmessSni_other).
  assert (field (vmessSni n) "wsOpts" = field n "wsOpts") as Ho'
    by (by rewrite vmessSni_other).
  assert (field (vmessSni n) "path" = field n "path") as Hp'
    by (by rewrite vmessSni_other).
  split; [|split].
  - intros Ho. unfold prepareVmessNodeConfig, vmessWsHeaders.
    rewrite Hh, Hh', Ho', Hp', Ho. simpl.
    exists (js_or (field n "path") (JStr "/")).
    split; [done |]. split; [by intros -> |].
    split; [by unfold js_or; intros -> |]. done.
  - intros opts h' Ho Hhead.
    assert (vmessWsHeaders n = Err WsHeadersConflict
            /\ prepareVmessNodeConfig n = Err WsHeadersConflict)
      as [Hrule Hprep].
    { unfold prepareVmessNodeConfig, vmessWsHeaders.
      rewrite Hh, Hh', Ho', Ho. simpl truthy. cbv beta iota.
      simpl negb. cbv beta iota. by rewrite getProp_obj, Hhead. }
    split; [done |]. split; [done |].
    intros params before after node Hres Hval Htag.
    by eapply refused_vmess_dropped.
  - intros opts Ho Hhead.
    unfold prepareVmessNodeConfig, vmessWsHeaders.
    rewrite Hh, Hh', Ho', Ho. simpl truthy. cbv beta iota.
    simpl negb. cbv beta iota. by rewrite getProp_obj, Hhead.
Qed.

(** C7, amended.  A vmess node whose [network] is [ws], [h2] or [http] and
    whose [path] is truthy (a non-empty string) never leaves the
    post-processor: it throws.  When rule 2 does not throw, the error is
    the one that sends the path to the options of the transport; this is
    so in particular when rule 2 has just copied the path into a [wsOpts]
    object of its making, the [path] of the node being still in place.
    The only other errors are those of rule 2, which runs first. *)
Theorem legacy_path_fails (n : jsobj) (net : string) :
  net ∈ pathTransports ->
  field n "network" = JStr net ->
  truthy (field n "path") = true ->
  (exists err,
     prepareVmessNodeConfig n = Err err
     /\ (err = MovePathTo (transportOptions net)
         \/ vmessWsHeaders (vmessSni n) = Err err))
  /\ (forall n1,
        vmessWsHeaders (vmessSni n) = Ok n1 ->
        prepareVmessNodeConfig n = Err (MovePathTo (transportOptions net)))
  /\ (truthy (field n "wsHeaders") = true ->
      truthy (field n "wsOpts") = false ->
      vmessWsHeaders (vmessSni n)
      = Ok (<["wsOpts" :=
                JObj {[ "headers" := field n "wsHeaders";
                        "path" := field n "path" ]}]> (vmessSni n))
      /\ prepareVmessNodeConfig n
         = Err (MovePathTo (transportOptions net)))
  /\ (forall params before after node,
        resolve this params = Ok (before ++ node :: after) ->
        validatedNode validators this node = Ok n ->
        isTag (field n "type") Vmess = true ->
        exists st err,
          getNodeListState validators this params = Ok st
          /\ parsedNodeList st
             = omap (passed validators this) before
               ++ omap (passed validators this) after
          /\ (length before, err) ∈ nodeErrors (console st)).
Proof.
  intros Hnet Hn Hp.
  assert (forall n1,
            vmessWsHeaders (vmessSni n) = Ok n1 ->
            prepareVmessNodeConfig n
            = Err (MovePathTo (transportOptions net))) as Hafter.
  { intros n1 H1. unfold prepareVmessNodeConfig. rewrite H1. simpl.
    apply pathChecks_truthy; [done | |].
    - by rewrite (vmessWsHeaders_other _ _ "network" H1), vmessSni_other.
    - by rewrite (vmessWsHeaders_other _ _ "path" H1), vmessSni_other. }
  assert (exists err,
            prepareVmessNodeConfig n = Err err
            /\ (err = MovePathTo (transportOptions net)
                \/ vmessWsHeaders (vmessSni n) = Err err))
    as (err & Herr & Hwhich).
  { destruct (vmessWsHeaders (vmessSni n)) as [n1|e] eqn:H1.
    - exists (MovePathTo (transportOptions net)).
      split; [by eapply Hafter | by left].
    - exists e. unfold prepareVmessNodeConfig. rewrite H1.
      split; [done | by right]. }
  split; [by exists err |]. split; [done |]. split.
  - intros Hws Hopts.
    assert (vmessWsHeaders (vmessSni n)
            = Ok (<["wsOpts" :=
                      JObj {[ "headers" := field n "wsHeaders";
                              "path" := field n "path" ]}]> (vmessSni n)))
      as Hrule.
    { unfold vmessWsHeaders.
      rewrite !vmessSni_other by done. rewrite Hws, Hopts. simpl.
      unfold js_or. by rewrite Hp. }
    split; [done | by eapply Hafter].
  - intros params before after node Hres Hval Htag.
    destruct (refused_vmess_dropped params before after node n err
                Hres Hval Htag Herr) as (st & Hst).
    by exists st, err.
Qed.

End PostProcessing.

Lemma wsHeaders_into_wsOpts_witness :
  prepareVmessNodeConfig nodeTwoHeaders = Err WsHeadersConflict
  /\ exists st,
      getNodeListState passthroughValidators
        (staticProvider [JObj nodeLegacyHeaders; JObj nodeTwoHeaders] None) tt
      = Ok st
      /\ (1%nat, WsHeadersConflict) ∈ nodeErrors (console st).
Proof.
  destruct (wsHeaders_into_wsOpts passthroughValidators
              (staticProvider
                 [JObj nodeLegacyHeaders; JObj nodeTwoHeaders] None)
              nodeTwoHeaders {[ "Host" := JStr "a.example.com" ]} eq_refl)
    as (_ & Hconflict & _).
  destruct (Hconflict
              {[ "path" := JStr "/ws";
                 "headers" := JObj {[ "Host" := JStr "b.example.com" ]} ]}
              {[ "Host" := JStr "b.example.com" ]} eq_refl eq_refl)
    as (_ & Hprep & Hdrop).
  split; [exact Hprep |].
  destruct (Hdrop tt [JObj nodeLegacyHeaders] [] (JObj nodeTwoHeaders)
              eq_refl eq_refl eq_refl) as (st & Hst & _ & Hin).
  exists st. split; [exact Hst | exact Hin].
Defined.

(** C7, as stated, fails on two counts.  The checks test the value of
    [path], so that a node on the [ws] transport whose [path] is set to the
    empty string leaves the post-processor unchanged; and rule 2 runs before
    them, so that a node on the [ws] transport with a path and with headers
    in both places fails with the conflict error, not with the error that
    points to [wsOpts.path]. *)
Lemma legacy_path_not_always_reported :
  (nodeEmptyPath !! "path" = Some (JStr "")
   /\ field nodeEmptyPath "network" = JStr "ws"
   /\ prepareVmessNodeConfig nodeEmptyPath = Ok nodeEmptyPath)
  /\ (field nodeTwoHeaders "path" = JStr "/legacy"
      /\ field nodeTwoHeaders "network" = JStr "ws"
      /\ prepareVmessNodeConfig nodeTwoHeaders = Err WsHeadersConflict
      /\ WsHeadersConflict ≠ MovePathTo (transportOptions "ws")).
Proof. repeat split; try (vm_compute; reflexivity). discriminate. Qed.

Lemma legacy_path_fails_witness :
  vmessWsHeaders (vmessSni nodeLegacyHeaders)
  = Ok (<["wsOpts" :=
            JObj {[ "headers" := JObj {[ "Host" := JStr "a.example.com" ]};
                    "path" := JStr "/legacy" ]}]> nodeLegacyHeaders)
  /\ prepareVmessNodeConfig nodeLegacyHeaders = Err (MovePathTo "wsOpts").
Proof.
  destruct (legacy_path_fails passthroughValidators
              (staticProvider [JObj nodeLegacyHeaders] None)
              nodeLegacyHeaders "ws")
    as (_ & _ & Hfresh & _).
  - unfold pathTransports. apply elem_of_cons. by left.
  - reflexivity.
  - reflexivity.
  - exact (Hfresh eq_refl eq_refl).
Defined.

(** ** The underlying-proxy default *)

Section UnderlyingProxy.

Context {Params : Type}.
Variable validators : NodeTypeEnum -> jsval -> result jsobj.
Variable this : CustomProvider (Params := Params).

Lemma fillUnderlyingProxy_field (n0 : jsobj) :
  field (fillUnderlyingProxy this n0) "underlyingProxy"
  = if truthy (optionalString (underlyingProxy this))
       && negb (truthy (field n0 "underlyingProxy"))
    then optionalString (underlyingProxy this)
    else field n0 "underlyingProxy".
Proof.
  unfold fillUnderlyingProxy. destruct (_ && _); [|done].
  by rewrite field_insert_eq.
Qed.

(** A node in the result went through the validator of its type. *)
Lemma outcome_ok (node : jsval) (n : jsobj) :
  outcome validators this node = Ok n ->
  exists decoded type n0,
    (decodeEnvelope node).2 = Ok decoded
    /\ getProp decoded "type" = Ok type
    /\ dispatch validators type decoded = Ok n0
    /\ field n "underlyingProxy"
       = field (fillUnderlyingProxy this n0) "underlyingProxy".
Proof.
  rewrite outcome_validatedNode. unfold validatedNode.
  destruct (decodeEnvelope node).2 as [decoded|]; simpl; [|done].
  destruct (getProp decoded "type") as [type|] eqn:Htype; simpl; [|done].
  destruct (deprecatedGuard decoded); simpl; [|done].
  destruct (dispatch validators type decoded) as [n0|] eqn:Hdisp; simpl;
    [|done].
  intros H. exists decoded, type, n0.
  split; [done |]. split; [done |]. split; [done |].
  revert H. destruct (isTag _ _); intros H.
  - by rewrite (prepareVmessNodeConfig_other _ _ "underlyingProxy" H).
  - by injection H as <-.
Qed.

(** C8, amended.  For a node of the result, validated as [n0]: when the
    provider has a non-empty default and the [underlyingProxy] of [n0] is
    absent or falsy (the empty string included), the node carries the
    default; when the [underlyingProxy] of [n0] is truthy (a non-empty
    string), the node keeps it; with no default, or an empty one, the node
    keeps what [n0] had. *)
Theorem underlyingProxy_default_fill (node : jsval) (n : jsobj) :
  outcome validators this node = Ok n ->
  exists decoded type n0,
    (decodeEnvelope node).2 = Ok decoded
    /\ getProp decoded "type" = Ok type
    /\ dispatch validators type decoded = Ok n0
    /\ (forall p, underlyingProxy this = Some p -> p ≠ "" ->
                  truthy (field n0 "underlyingProxy") = false ->
                  field n "underlyingProxy" = JStr p)
    /\ (truthy (field n0 "underlyingProxy") = true ->
        field n "underlyingProxy" = field n0 "underlyingProxy")
    /\ (underlyingProxy this = None \/ underlyingProxy this = Some "" ->
        field n "underlyingProxy" = field n0 "underlyingProxy").
Proof.
  intros Hout.
  destruct (outcome_ok node n Hout)
    as (decoded & type & n0 & Hdec & Htype & Hdisp & Hfield).
  exists decoded, type, n0. split; [done |]. split; [done |].
  split; [done |].
  rewrite Hfield, fillUnderlyingProxy_field. split; [|split].
  - intros p -> Hp ->. simpl. by destruct p.
  - intros ->. by rewrite andb_false_r.
  - by intros [-> | ->].
Qed.

End UnderlyingProxy.

(** C8, as stated, fails: the default is held back by a truthy value on the
    node, not by a declared one.  A node that declares the empty string as
    its [underlyingProxy] gets the default of the provider in its place.
    (And a provider built with the empty string as its default, which the
    schema of the constructor accepts, assigns nothing to a node that
    declares none.) *)
Lemma empty_underlyingProxy_overridden :
  nodeEmptyProxy !! "underlyingProxy" = Some (JStr "")
  /\ fillUnderlyingProxy (staticProvider [] (Some "proxy-a")) nodeEmptyProxy
     = <["underlyingProxy" := JStr "proxy-a"]> nodeEmptyProxy
  /\ getNodeList passthroughValidators
       (staticProvider [JObj nodeEmptyProxy] (Some "proxy-a")) tt
     = Ok [<["underlyingProxy" := JStr "proxy-a"]> nodeEmptyProxy]
  /\ nodeUdpRelayFalse !! "underlyingProxy" = None
  /\ fillUnderlyingProxy (staticProvider [] (Some "")) nodeUdpRelayFalse
     = nodeUdpRelayFalse.
Proof. repeat split; vm_compute; reflexivity. Qed.

Lemma underlyingProxy_default_fill_witness :
  exists decoded type n0,
    (decodeEnvelope (JObj nodeOwnProxy)).2 = Ok decoded
    /\ getProp decoded "type" = Ok type
    /\ dispatch passthroughValidators type decoded = Ok n0
    /\ (forall p, underlyingProxy providerWithDefault = Some p -> p ≠ "" ->
                  truthy (field n0 "underlyingProxy") = false ->
                  field nodeOwnProxy "underlyingProxy" = JStr p)
    /\ (truthy (field n0 "underlyingProxy") = true ->
        field nodeOwnProxy "underlyingProxy" = field n0 "underlyingProxy")
    /\ (underlyingProxy providerWithDefault = None
        \/ underlyingProxy providerWithDefault = Some "" ->
        field nodeOwnProxy "underlyingProxy" = field n0 "underlyingProxy").
Proof.
  apply (underlyingProxy_default_fill passthroughValidators
           providerWithDefault (JObj nodeOwnProxy) nodeOwnProxy).
  vm_compute; reflexivity.
Defined.

(** ** The pattern, read as a language

    The strings [matchBase64Pattern] accepts are those the pattern
    describes: a scheme [ss] or [vmess], the text [://], a non-empty run of
    characters of the class, and possibly a [#] followed by characters that
    are no line terminators; the groups are the pieces of that reading. *)

Lemma append_nil_r (a : string) : a +:+ "" = a.
Proof.
  induction a as [|x a IH]; [done |]. by rewrite append_cons, IH.
Qed.

Lemma stripPrefix_Some (pre s rest : string) :
  stripPrefix pre s = Some rest <-> s = pre +:+ rest.
Proof.
  revert s. induction pre as [|a pre IH]; intros s; simpl.
  - split; [by intros [= ->] | by intros ->].
  - destruct s as [|b s].
    + split; [done | by rewrite append_cons].
    + rewrite append_cons. destruct (Ascii.eqb_spec a b) as [-> | Hne].
      * rewrite IH. split; [by intros -> | by intros [= ->]].
      * split; [done | intros [= -> _]; done].
Qed.

(** [span] cuts its input in two; the first part is in the class and the
    second does not start with a character of the class. *)
Lemma span_spec (p : ascii -> bool) (s a b : string) :
  span p s = (a, b) ->
  s = a +:+ b /\ allChars p a = true
  /\ match b with
     | EmptyString => True
     | String c _ => p c = false
     end.
Proof.
  revert a b. induction s as [|c s IH]; intros a b; simpl.
  - by intros [= <- <-].
  - destruct (p c) eqn:Hc.
    + destruct (span p s) as [a' b'] eqn:Hs. intros [= <- <-].
      destruct (IH a' b' eq_refl) as (-> & Ha & Hb).
      rewrite append_cons. simpl. by rewrite Hc, Ha.
    + intros [= <- <-]. by rewrite Hc.
Qed.

Lemma span_app (p : ascii -> bool) (a b : string) :
  allChars p a = true ->
  match b with
  | EmptyString => True
  | String c _ => p c = false
  end ->
  span p (a +:+ b) = (a, b).
Proof.
  intros Ha Hb. induction a as [|x a IH].
  - change (EmptyString +:+ b) with b. destruct b as [|c b]; simpl; [done |].
    by rewrite Hb.
  - rewrite append_cons. simpl in *.
    apply andb_prop in Ha as [-> Ha]. by rewrite (IH Ha).
Qed.

Lemma matchAfterScheme_sound (sch rest : string) (m : envelopeMatch) :
  matchAfterScheme sch rest = Some m ->
  rest = "://" +:+ base64String m +:+ default "" (fragment m)
  /\ base64String m ≠ ""
  /\ allChars isPatternChar (base64String m) = true
  /\ (fragment m = None
      \/ exists t, fragment m = Some (String "#" t)
                   /\ noLineTerminator t = true).
Proof.
  unfold matchAfterScheme.
  destruct (stripPrefix "://" rest) as [body|] eqn:Hpre; [|done].
  apply stripPrefix_Some in Hpre as ->.
  destruct (span isPatternChar body) as [payload tail] eqn:Hspan.
  destruct (span_spec _ _ _ _ Hspan) as (-> & Hclass & Htail).
  destruct payload as [|c0 payload]; [done |].
  destruct tail as [|c after].
  - intros [= <-]. simpl. by auto.
  - destruct (Ascii.eqb_spec c "#") as [-> | Hne]; simpl; [|done].
    destruct (noLineTerminator after) eqn:Hafter; [|done].
    intros [= <-]. simpl. split; [done |]. split; [done |].
    split; [done |]. right. by exists after.
Qed.

Lemma matchAfterScheme_complete (sch : string) (m : envelopeMatch) :
  scheme m = sch ->
  base64String m ≠ "" ->
  allChars isPatternChar (base64String m) = true ->
  (fragment m = None
   \/ exists t, fragment m = Some (String "#" t)
                /\ noLineTerminator t = true) ->
  matchAfterScheme sch
    ("://" +:+ base64String m +:+ default "" (fragment m))
  = Some m.
Proof.
  destruct m as [sch' payload frag]. simpl. intros -> Hne Hclass Hfrag.
  unfold matchAfterScheme.
  assert (stripPrefix "://" ("://" +:+ payload +:+ default "" frag)
          = Some (payload +:+ default "" frag)) as ->
    by (by apply stripPrefix_Some).
  rewrite span_app; [| done |].
  - destruct payload as [|c0 payload]; [done |].
    destruct Hfrag as [-> | (t & -> & Ht)]; simpl; [done |].
    by rewrite Ht.
  - by destruct Hfrag as [-> | (t & -> & Ht)].
Qed.

(** Soundness: an accepted string is the text of a well-formed match. *)
Lemma matchBase64Pattern_sound (s : string) (m : envelopeMatch) :
  matchBase64Pattern s = Some m -> s = envelopeText m /\ wellFormedMatch m.
Proof.
  unfold matchBase64Pattern, envelopeText, wellFormedMatch.
  destruct (stripPrefix "ss" s ≫= matchAfterScheme "ss") as [m'|] eqn:Hss.
  - intros [= <-].
    destruct (stripPrefix "ss" s) as [rest|] eqn:Hpre; [|done].
    simpl in Hss. apply stripPrefix_Some in Hpre as ->.
    rewrite (matchAfterScheme_scheme _ _ _ Hss).
    destruct (matchAfterScheme_sound _ _ _ Hss) as (-> & ? & ? & ?).
    by auto.
  - destruct (stripPrefix "vmess" s) as [rest|] eqn:Hpre; [|done].
    simpl. intros Hvm. apply stripPrefix_Some in Hpre as ->.
    rewrite (matchAfterScheme_scheme _ _ _ Hvm).
    destruct (matchAfterScheme_sound _ _ _ Hvm) as (-> & ? & ? & ?).
    by auto.
Qed.

(** Completeness: the text of a well-formed match is accepted, with that
    match. *)
Lemma matchBase64Pattern_complete (m : envelopeMatch) :
  wellFormedMatch m -> matchBase64Pattern (envelopeText m) = Some m.
Proof.
  unfold wellFormedMatch, envelopeText, matchBase64Pattern.
  intros ([Hs | Hs] & Hne & Hclass & Hfrag); rewrite Hs.
  - assert (stripPrefix "ss"
              ("ss" +:+ "://" +:+ base64String m +:+ default "" (fragment m))
            = Some ("://" +:+ base64String m +:+ default "" (fragment m)))
      as -> by (by apply stripPrefix_Some).
    simpl. by rewrite (matchAfterScheme_complete "ss" m).
  - assert (stripPrefix "ss"
              ("vmess" +:+ "://" +:+ base64String m
                 +:+ default "" (fragment m)) = None) as -> by done.
    exact (matchAfterScheme_complete "vmess" m Hs Hne Hclass Hfrag).
Qed.

(** ** The two ways of cutting the payload agree on plain pieces *)

Lemma splitFirst_app (c : ascii) (a b : string) :
  lacks c a = true -> splitFirst c (a +:+ String c b) = Some (a, b).
Proof.
  induction a as [|x a IH].
  - intros _. change (EmptyString +:+ String c b) with (String c b).
    simpl. by rewrite Ascii.eqb_refl.
  - intros [Hx Ha]%andb_prop. apply negb_true_iff in Hx.
    rewrite append_cons. simpl. by rewrite Hx, (IH Ha).
Qed.

(** When no piece holds a separator, cutting at the first [@] and then at
    the colons, as the specification words it, gives the fields the source
    computes by cutting at the colons and then at the [@]. *)
Lemma spec_shadowsocksFields_agree (o : jsobj)
  (method password hostname port : string) :
  lacks ":" method = true -> lacks "@" method = true ->
  lacks ":" password = true -> lacks "@" password = true ->
  lacks ":" hostname = true -> lacks "@" hostname = true ->
  lacks ":" port = true ->
  Some <$> (decodedFields
              <$> decodeShadowsocks (JObj o)
                    (method +:+ ":" +:+ password +:+ "@" +:+ hostname
                       +:+ ":" +:+ port))
  = Ok (spec_shadowsocksFields
          (method +:+ ":" +:+ password +:+ "@" +:+ hostname +:+ ":" +:+ port)).
Proof.
  intros Hm Hm' Hp Hp' Hh Hh' Hport.
  rewrite (decodeShadowsocks_pieces o _ _ _ _ Hm Hp Hp' Hh Hh' Hport).
  unfold spec_shadowsocksFields.
  replace (method +:+ ":" +:+ password +:+ "@" +:+ hostname +:+ ":" +:+ port)
    with ((method +:+ ":" +:+ password)
            +:+ String "@" (hostname +:+ ":" +:+ port))
    by (by rewrite !append_assoc).
  rewrite splitFirst_app by (by rewrite lacks_app, Hm'; simpl).
  simpl.
  change (method +:+ ":" +:+ password) with (method +:+ String ":" password).
  rewrite (splitFirst_app _ _ _ Hm). simpl.
  change (hostname +:+ ":" +:+ port) with (hostname +:+ String ":" port).
  rewrite (splitFirst_app _ _ _ Hh). simpl.
  unfold decodedFields, prop. simpl.
  by rewrite !field_insert.
Qed.

(** ** A batch, run *)

(** Five nodes: an envelope, [null], a node with a truthy deprecated field,
    a vmess node, and an envelope the pattern refuses.  The first and the
    fourth come out, in that order; the three others are reported at the
    positions 1, 2 and 4. *)
Example getNodeList_mixed_batch :
  getNodeListState passthroughValidators
    (staticProvider
       [JObj {[ "base64" := JStr envelopeExample ]}; JNull;
        JObj nodeUdpRelayTrue; JObj nodeHostAndSni; JObj nodeBadEnvelope]
       (Some "proxy-a")) tt
  = Ok {| parsedNodeList :=
            [<["underlyingProxy" := JStr "proxy-a"]>
               (exampleDecoded {[ "base64" := JStr envelopeExample ]});
             <["underlyingProxy" := JStr "proxy-a"]>
               (<["sni" := JStr "a.example.com"]> nodeHostAndSni)];
          console :=
            [LogNodeError 1 (TypeErrorRead "base64");
             LogNodeError 2 (DeprecatedField "udp-relay" "udpRelay");
             LogInvalidBase64;
             LogNodeError 4 InvalidBase64Format] |}.
Proof. vm_compute. reflexivity. Qed.

(** * Further properties of the pipeline *)

(** ** The dispatcher *)

Lemma isTag_true (v : jsval) (t : NodeTypeEnum) :
  isTag v t = true -> v = JStr (tagOf t).
Proof.
  destruct v; simpl; try done. by intros ->%String.eqb_eq.
Qed.

Lemma switchType_tag (t : NodeTypeEnum) : switchType (JStr (tagOf t)) = Some t.
Proof. by destruct t. Qed.

Lemma switchType_other (v : jsval) :
  (forall t, v ≠ JStr (tagOf t)) -> switchType v = None.
Proof.
  intros Hv.
  assert (forall t, isTag v t = false) as Hfalse.
  { intros t. destruct (isTag v t) eqn:H; [|done].
    by apply isTag_true, Hv in H. }
  unfold switchType, allNodeTypes. cbn [find]. by rewrite !Hfalse.
Qed.

Section Dispatch.

Context {Params : Type}.
Variable validators : NodeTypeEnum -> jsval -> result jsobj.
Variable this : CustomProvider (Params := Params).

(** X1.  The [switch] of the dispatcher hands a node whose [type] is the
    tag of one of the twelve node types to the validator of that type, and
    to no other; any other [type], a missing one included, ends in the
    unrecognised-type error, which carries the value found. *)
Theorem dispatch_routes (node : jsval) :
  (forall t, dispatch validators (JStr (tagOf t)) node = validators t node)
  /\ (forall type, (forall t, type ≠ JStr (tagOf t)) ->
                   dispatch validators type node = Err (UnknownNodeType type)).
Proof.
  split.
  - intros t. unfold dispatch. by rewrite switchType_tag.
  - intros type Htype. unfold dispatch. by rewrite switchType_other.
Qed.

(** X2.  A node without envelope and without a truthy deprecated field whose
    [type] is none of the twelve tags is refused with the unrecognised-type
    error whatever the validators are: it adds nothing to the result and is
    reported at its index. *)
Theorem unknown_type_dropped (params : Params) (before after : list jsval)
  (o : jsobj) :
  resolve this params = Ok (before ++ JObj o :: after) ->
  truthy (field o "base64") = false ->
  (forall old new, (old, new) ∈ deprecatedFields ->
                   truthy (field o old) = false) ->
  (forall t, field o "type" ≠ JStr (tagOf t)) ->
  outcome validators this (JObj o) = Err (UnknownNodeType (field o "type"))
  /\ exists st,
      getNodeListState validators this params = Ok st
      /\ parsedNodeList st
         = omap (passed validators this) before
           ++ omap (passed validators this) after
      /\ (length before, UnknownNodeType (field o "type"))
         ∈ nodeErrors (console st).
Proof.
  intros Hres Hb Hdep Htype.
  assert (outcome validators this (JObj o)
          = Err (UnknownNodeType (field o "type"))) as Hout.
  { unfold outcome, processNode, decodeEnvelope.
    rewrite getProp_obj, Hb. simpl.
    unfold validateNode. rewrite getProp_obj. simpl.
    rewrite (deprecatedGuard_pass o Hdep). simpl.
    unfold dispatch. by rewrite (switchType_other _ Htype). }
  split; [done |].
  by apply (failed_node_dropped validators this params before after
              (JObj o) _ Hres).
Qed.

(** X3.  A node that is not an object never reaches a validator: reading
    [base64] off [null] or [undefined] throws, and a number, a boolean or a
    string has no [type], so that the dispatcher refuses it.  Either way the
    node adds nothing to the result and is reported at its index. *)
Theorem non_object_node_dropped (params : Params)
  (before after : list jsval) (node : jsval) :
  resolve this params = Ok (before ++ node :: after) ->
  (forall o, node ≠ JObj o) ->
  exists err,
    err = match node with
          | JUndefined | JNull => TypeErrorRead "base64"
          | _ => UnknownNodeType JUndefined
          end
    /\ outcome validators this node = Err err
    /\ exists st,
        getNodeListState validators this params = Ok st
        /\ parsedNodeList st
           = omap (passed validators this) before
             ++ omap (passed validators this) after
        /\ (length before, err) ∈ nodeErrors (console st).
Proof.
  intros Hres Hnode.
  eexists. split; [reflexivity |].
  assert (outcome validators this node
          = Err match node with
                | JUndefined | JNull => TypeErrorRead "base64"
                | _ => UnknownNodeType JUndefined
                end) as Hout.
  { destruct node; try done. by destruct (Hnode o). }
  split; [done |].
  by apply (failed_node_dropped validators this params before after
              node _ Hres).
Qed.

End Dispatch.

Lemma unknown_type_dropped_witness :
  outcome passthroughValidators
    (staticProvider
       [JObj nodeHostAndSni; JObj {[ "type" := JStr "ssh" ]}] None)
    (JObj {[ "type" := JStr "ssh" ]})
  = Err (UnknownNodeType (field {[ "type" := JStr "ssh" ]} "type"))
  /\ exists st,
      getNodeListState passthroughValidators
        (staticProvider
           [JObj nodeHostAndSni; JObj {[ "type" := JStr "ssh" ]}] None) tt
      = Ok st
      /\ parsedNodeList st
         = omap (passed passthroughValidators
                   (staticProvider
                      [JObj nodeHostAndSni; JObj {[ "type" := JStr "ssh" ]}]
                      None)) [JObj nodeHostAndSni]
           ++ omap (passed passthroughValidators
                      (staticProvider
                         [JObj nodeHostAndSni;
                          JObj {[ "type" := JStr "ssh" ]}] None)) []
      /\ (length [JObj nodeHostAndSni],
          UnknownNodeType (field {[ "type" := JStr "ssh" ]} "type"))
         ∈ nodeErrors (console st).
Proof.
  apply (unknown_type_dropped passthroughValidators
           (staticProvider
              [JObj nodeHostAndSni; JObj {[ "type" := JStr "ssh" ]}] None)
           tt [JObj nodeHostAndSni] [] {[ "type" := JStr "ssh" ]}).
  - reflexivity.
  - reflexivity.
  - intros old new Hin.
    destruct (deprecatedFields_cases old new Hin) as [-> | [-> | ->]];
      reflexivity.
  - intros t. by destruct t.
Defined.

Lemma non_object_node_dropped_witness :
  exists err,
    err = UnknownNodeType JUndefined
    /\ outcome passthroughValidators
         (staticProvider [JObj nodeHostAndSni; JNum 5] None) (JNum 5)
       = Err err
    /\ exists st,
        getNodeListState passthroughValidators
          (staticProvider [JObj nodeHostAndSni; JNum 5] None) tt = Ok st
        /\ parsedNodeList st
           = omap (passed passthroughValidators
                     (staticProvider [JObj nodeHostAndSni; JNum 5] None))
               [JObj nodeHostAndSni]
             ++ omap (passed passthroughValidators
                        (staticProvider [JObj nodeHostAndSni; JNum 5] None))
                  []
        /\ (length [JObj nodeHostAndSni], err) ∈ nodeErrors (console st).
Proof.
  apply (non_object_node_dropped passthroughValidators
           (staticProvider [JObj nodeHostAndSni; JNum 5] None)
           tt [JObj nodeHostAndSni] [] (JNum 5)).
  - reflexivity.
  - discriminate.
Defined.

Lemma dispatch_routes_witness :
  dispatch passthroughValidators (JStr "ssh") (JObj nodeHostAndSni)
  = Err (UnknownNodeType (JStr "ssh")).
Proof.
  apply (proj2 (dispatch_routes passthroughValidators (JObj nodeHostAndSni))).
  intros t. by destruct t.
Defined.

(** ** The envelope decoder *)

Lemma split_first_piece (c : ascii) (s : string) :
  exists a rest, split c s = a :: rest.
Proof.
  induction s as [|x s (a & rest & IH)]; simpl; [by eauto |].
  destruct (Ascii.eqb x c); [by eauto |]. rewrite IH. by eauto.
Qed.

Lemma split_second_piece (c : ascii) (s : string) :
  lacks c s = false -> exists a b rest, split c s = a :: b :: rest.
Proof.
  induction s as [|x s IH]; simpl; [done |].
  unfold lacks in *. simpl.
  destruct (Ascii.eqb x c) eqn:Hx; simpl.
  - intros _. destruct (split_first_piece c s) as (a & rest & ->).
    by eauto.
  - intros H. destruct (IH H) as (a & b & rest & ->). by eauto.
Qed.

(** X4.  The Shadowsocks arm of the decoder succeeds exactly when the
    decoded text holds a colon.  A text without colon has no second piece,
    so that [passwordWithHost.split] throws: such an envelope fails the
    node, whatever else the node carries. *)
Theorem decodeShadowsocks_needs_colon (node : jsval) (decoded : string) :
  is_ok (decodeShadowsocks node decoded) = negb (lacks ":" decoded)
  /\ (lacks ":" decoded = true ->
      decodeShadowsocks node decoded = Err (TypeErrorRead "split")).
Proof.
  unfold decodeShadowsocks.
  destruct (lacks ":" decoded) eqn:Hc; simpl.
  - rewrite (split_lacks _ _ Hc). by split.
  - destruct (split_second_piece _ _ Hc) as (a & b & rest & ->).
    by split.
Qed.

Lemma decodeShadowsocks_needs_colon_witness :
  decodeShadowsocks (JObj nodeEmptyProxy) "no separator here"
  = Err (TypeErrorRead "split").
Proof.
  apply (proj2 (decodeShadowsocks_needs_colon (JObj nodeEmptyProxy)
                  "no separator here")).
  reflexivity.
Defined.

(** X5.  An envelope that matches with the scheme [vmess] is accepted and
    contributes nothing: the decoder returns the node as it is, without
    setting its [type] and without writing to the console, so that the node
    is validated on the properties it carries itself. *)
Theorem vmess_envelope_contributes_nothing (o : jsobj) (env : string)
  (m : envelopeMatch) :
  field o "base64" = JStr env ->
  matchBase64Pattern env = Some m ->
  scheme m = "vmess" ->
  decodeEnvelope (JObj o) = ([], Ok (JObj o))
  /\ forall (Params : Type) validators (this : CustomProvider (Params := Params)),
      processNode validators this (JObj o)
      = ([], validateNode validators this (JObj o)).
Proof.
  intros Hb Hm Hs.
  assert (decodeEnvelope (JObj o) = ([], Ok (JObj o))) as Hdec.
  { unfold decodeEnvelope.
    rewrite getProp_obj, Hb, (matchBase64Pattern_nonempty _ _ Hm), Hm, Hs.
    done. }
  split; [done |].
  intros Params validators this. unfold processNode. by rewrite Hdec.
Qed.

Lemma vmess_envelope_contributes_nothing_witness :
  decodeEnvelope (JObj {[ "base64" := JStr "vmess://eyJ2IjoiMiJ9" ]})
  = ([], Ok (JObj {[ "base64" := JStr "vmess://eyJ2IjoiMiJ9" ]}))
  /\ forall (Params : Type) validators (this : CustomProvider (Params := Params)),
      processNode validators this
        (JObj {[ "base64" := JStr "vmess://eyJ2IjoiMiJ9" ]})
      = ([], validateNode validators this
               (JObj {[ "base64" := JStr "vmess://eyJ2IjoiMiJ9" ]})).
Proof.
  apply (vmess_envelope_contributes_nothing
           {[ "base64" := JStr "vmess://eyJ2IjoiMiJ9" ]}
           "vmess://eyJ2IjoiMiJ9"
           {| scheme := "vmess"; base64String := "eyJ2IjoiMiJ9";
              fragment := None |});
    reflexivity.
Defined.

Section EnvelopeType.

Context {Params : Type}.
Variable validators : NodeTypeEnum -> jsval -> result jsobj.
Variable this : CustomProvider (Params := Params).

(** X6.  An [ss] envelope decides the type of the node.  Whatever [type]
    the node declares, once the payload holds a colon the decoder writes the
    Shadowsocks tag over it, and the node is handed to the Shadowsocks
    validator and to no other (after the guard on the deprecated fields). *)
Theorem ss_envelope_selects_shadowsocks (o : jsobj) (env : string)
  (m : envelopeMatch) :
  field o "base64" = JStr env ->
  matchBase64Pattern env = Some m ->
  scheme m = "ss" ->
  lacks ":" (Base64_decode (base64String m)) = false ->
  exists o' : jsobj,
    decodeEnvelope (JObj o) = ([], Ok (JObj o'))
    /\ field o' "type" = JStr (tagOf Shadowsocks)
    /\ validatedNode validators this (JObj o)
       = (deprecatedGuard (JObj o');;
          fillUnderlyingProxy this <$> validators Shadowsocks (JObj o')).
Proof.
  intros Hb Hm Hs Hcolon.
  rewrite (decodeEnvelope_ss o env m Hb Hm Hs).
  unfold validatedNode.
  rewrite (decodeEnvelope_ss o env m Hb Hm Hs). simpl.
  unfold decodeShadowsocks.
  destruct (split_second_piece _ _ Hcolon) as (a & b & rest & ->).
  simpl. eexists. split; [reflexivity |].
  split; [by rewrite !field_insert |].
  rewrite !lookup_insert_ne, lookup_insert_eq by done. simpl.
  unfold dispatch.
  change (switchType (JStr "shadowsocks")) with (Some Shadowsocks).
  done.
Qed.

End EnvelopeType.

(** A node that declares the type [vmess] and carries an [ss] envelope. *)
Lemma ss_envelope_selects_shadowsocks_witness :
  exists o' : jsobj,
    decodeEnvelope
      (JObj (<["base64" := JStr envelopeExample]> nodeHostAndSni))
    = ([], Ok (JObj o'))
    /\ field o' "type" = JStr (tagOf Shadowsocks)
    /\ validatedNode passthroughValidators (staticProvider [] None)
         (JObj (<["base64" := JStr envelopeExample]> nodeHostAndSni))
       = (deprecatedGuard (JObj o');;
          fillUnderlyingProxy (staticProvider [] None)
            <$> passthroughValidators Shadowsocks (JObj o')).
Proof.
  apply (ss_envelope_selects_shadowsocks passthroughValidators
           (staticProvider [] None)
           (<["base64" := JStr envelopeExample]> nodeHostAndSni)
           envelopeExample
           {| scheme := "ss";
              base64String :=
                "YWVzLTI1Ni1nY206c2VjcmV0QGV4YW1wbGUuY29tOjgzODg=";
              fragment := None |});
    vm_compute; reflexivity.
Defined.

(** X7.  The decoder writes at most the five properties [type], [hostname],
    [port], [method] and [password]: every other property of a node that
    leaves it is the one the node came with.  The envelope itself is among
    them, so that [base64] is still on the node the validator receives. *)
Theorem decoder_keeps_other_properties (o : jsobj)
  (written : list logEntry) (v : jsval) :
  decodeEnvelope (JObj o) = (written, Ok v) ->
  exists o' : jsobj,
    v = JObj o'
    /\ (forall k, k ∉ decodedKeys -> o' !! k = o !! k)
    /\ o' !! "base64" = o !! "base64".
Proof.
  unfold decodeEnvelope. rewrite getProp_obj.
  destruct (truthy (field o "base64")).
  2:{ intros [= _ <-]. by exists o. }
  destruct (field o "base64"); try done.
  destruct (matchBase64Pattern s) as [m|]; [|done].
  destruct (switchNodeType _).
  - unfold decodeShadowsocks.
    destruct (element (split ":" _) 1); try done.
    intros [= _ <-]. eexists. split; [reflexivity |]. split.
    + intros k Hk. unfold decodedKeys in Hk.
      rewrite !elem_of_cons, elem_of_nil in Hk.
      rewrite !lookup_insert_ne; [done | | | | |]; intros <-; tauto.
    + by rewrite !lookup_insert_ne.
  - intros [= _ <-]. by exists o.
  - intros [= _ <-]. by exists o.
Qed.

Lemma decoder_keeps_other_properties_witness :
  exists o' : jsobj,
    JObj (exampleDecoded {[ "base64" := JStr envelopeExample ]}) = JObj o'
    /\ (forall k, k ∉ decodedKeys ->
                  o' !! k
                  = ({[ "base64" := JStr envelopeExample ]} : jsobj) !! k)
    /\ o' !! "base64"
       = ({[ "base64" := JStr envelopeExample ]} : jsobj) !! "base64".
Proof.
  apply (decoder_keeps_other_properties
           {[ "base64" := JStr envelopeExample ]} []
           (JObj (exampleDecoded {[ "base64" := JStr envelopeExample ]}))).
  vm_compute; reflexivity.
Defined.

(** ** The envelope pattern *)

(** X8.  The strings the pattern accepts, and the groups it captures: a
    string matches with the groups [m] exactly when it is the scheme [ss] or
    [vmess], then [://], then a non-empty run of characters among
    [A-Za-z0-9+/=], then either nothing or a [#] followed by characters none
    of which is a line terminator, and the groups are these pieces. *)
Theorem envelope_language (s : string) (m : envelopeMatch) :
  matchBase64Pattern s = Some m <-> s = envelopeText m /\ wellFormedMatch m.
Proof.
  split.
  - apply matchBase64Pattern_sound.
  - intros [-> Hm]. by apply matchBase64Pattern_complete.
Qed.

(** X9.  A character that is neither in the class of the pattern nor a [#]
    makes the envelope invalid wherever it stands in the payload: the
    URL-safe [-] and [_], a blank, a line break.  The decoder then writes
    its warning and throws the format error. *)
Theorem envelope_foreign_character_refused (sch p q : string) (c : ascii)
  (o : jsobj) :
  sch = "ss" \/ sch = "vmess" ->
  allChars isPatternChar p = true ->
  isPatternChar c = false ->
  c ≠ "#"%char ->
  matchBase64Pattern (sch +:+ "://" +:+ p +:+ String c q) = None
  /\ (field o "base64" = JStr (sch +:+ "://" +:+ p +:+ String c q) ->
      decodeEnvelope (JObj o) = ([LogInvalidBase64], Err InvalidBase64Format)).
Proof.
  intros Hsch Hp Hc Hhash.
  assert (matchAfterScheme sch ("://" +:+ p +:+ String c q) = None) as Hafter.
  { unfold matchAfterScheme.
    assert (stripPrefix "://" ("://" +:+ p +:+ String c q)
            = Some (p +:+ String c q)) as ->
      by (by apply stripPrefix_Some).
    rewrite (span_app _ p (String c q) Hp Hc).
    destruct p; [done |].
    destruct (Ascii.eqb_spec c "#"); [done | done]. }
  assert (matchBase64Pattern (sch +:+ "://" +:+ p +:+ String c q) = None)
    as Hnone.
  { unfold matchBase64Pattern. destruct Hsch as [-> | ->].
    - assert (stripPrefix "ss" ("ss" +:+ "://" +:+ p +:+ String c q)
              = Some ("://" +:+ p +:+ String c q)) as ->
        by (by apply stripPrefix_Some).
      simpl. by rewrite Hafter.
    - assert (stripPrefix "ss" ("vmess" +:+ "://" +:+ p +:+ String c q)
              = None) as -> by done.
      exact Hafter. }
  split; [done |].
  intros Hb. unfold decodeEnvelope. rewrite getProp_obj, Hb.
  assert (truthy (JStr (sch +:+ "://" +:+ p +:+ String c q)) = true) as ->
    by (by destruct Hsch as [-> | ->]).
  by rewrite Hnone.
Qed.

Lemma envelope_foreign_character_refused_witness :
  matchBase64Pattern ("ss" +:+ "://" +:+ "YWJj" +:+ String "-" "ZGVm") = None
  /\ (field {[ "base64" := JStr "ss://YWJj-ZGVm" ]} "base64"
      = JStr ("ss" +:+ "://" +:+ "YWJj" +:+ String "-" "ZGVm") ->
      decodeEnvelope (JObj {[ "base64" := JStr "ss://YWJj-ZGVm" ]})
      = ([LogInvalidBase64], Err InvalidBase64Format)).
Proof.
  apply (envelope_foreign_character_refused "ss" "YWJj" "ZGVm" "-"
           {[ "base64" := JStr "ss://YWJj-ZGVm" ]}).
  - by left.
  - reflexivity.
  - reflexivity.
  - discriminate.
Defined.

(** X10.  The fragment is matched and ignored: an envelope that matches
    without fragment still matches when [#] and any text without line
    terminator is appended, with the same scheme and the same payload, hence
    with the same decoded fields. *)
Theorem envelope_fragment_ignored (s t : string) (m : envelopeMatch) :
  matchBase64Pattern s = Some m ->
  fragment m = None ->
  noLineTerminator t = true ->
  matchBase64Pattern (s +:+ String "#" t)
  = Some {| scheme := scheme m; base64String := base64String m;
            fragment := Some (String "#" t) |}.
Proof.
  intros Hm Hfrag Ht.
  destruct (matchBase64Pattern_sound s m Hm) as [-> (Hs & Hne & Hclass & _)].
  unfold envelopeText. rewrite Hfrag. simpl default.
  rewrite append_nil_r.
  replace ((scheme m +:+ "://" +:+ base64String m) +:+ String "#" t)
    with (envelopeText {| scheme := scheme m;
                          base64String := base64String m;
                          fragment := Some (String "#" t) |}).
  - apply matchBase64Pattern_complete. unfold wellFormedMatch. simpl.
    split; [done |]. split; [done |]. split; [done |].
    right. by exists t.
  - unfold envelopeText. simpl. by rewrite !append_assoc.
Qed.

Lemma envelope_fragment_ignored_witness :
  matchBase64Pattern (envelopeExample +:+ String "#" "my node")
  = Some {| scheme := "ss";
            base64String :=
              "YWVzLTI1Ni1nY206c2VjcmV0QGV4YW1wbGUuY29tOjgzODg=";
            fragment := Some (String "#" "my node") |}.
Proof.
  apply (envelope_fragment_ignored envelopeExample "my node"
           {| scheme := "ss";
              base64String :=
                "YWVzLTI1Ni1nY206c2VjcmV0QGV4YW1wbGUuY29tOjgzODg=";
              fragment := None |});
    reflexivity.
Defined.

(** ** The guard *)

(** X11.  The guard lets an object through exactly when none of
    [udp-relay], [obfs-host] and [obfs-uri] holds a truthy value; when it
    throws, it names the first of the three, in that order, that does. *)
Theorem deprecatedGuard_passes_iff (o : jsobj) :
  (deprecatedGuard (JObj o) = Ok ()
   <-> forall old new, (old, new) ∈ deprecatedFields ->
                       truthy (field o old) = false)
  /\ (truthy (field o "udp-relay") = true ->
      deprecatedGuard (JObj o) = Err (DeprecatedField "udp-relay" "udpRelay"))
  /\ (truthy (field o "udp-relay") = false ->
      truthy (field o "obfs-host") = true ->
      deprecatedGuard (JObj o) = Err (DeprecatedField "obfs-host" "obfsHost"))
  /\ (truthy (field o "udp-relay") = false ->
      truthy (field o "obfs-host") = false ->
      truthy (field o "obfs-uri") = true ->
      deprecatedGuard (JObj o) = Err (DeprecatedField "obfs-uri" "obfsUri")).
Proof.
  rewrite deprecatedGuard_obj. split; [split |].
  - intros Hok old new Hin.
    destruct (truthy (field o "udp-relay")) eqn:H1; [done |].
    destruct (truthy (field o "obfs-host")) eqn:H2; [done |].
    destruct (truthy (field o "obfs-uri")) eqn:H3; [done |].
    by destruct (deprecatedFields_cases _ _ Hin) as [-> | [-> | ->]].
  - intros H.
    rewrite (H "udp-relay" "udpRelay"), (H "obfs-host" "obfsHost"),
      (H "obfs-uri" "obfsUri"); [done | | |];
      unfold deprecatedFields; rewrite !elem_of_cons; auto.
  - split; [by intros -> |]. split; [by intros -> -> |].
    by intros -> -> ->.
Qed.

Lemma deprecatedGuard_passes_iff_witness :
  deprecatedGuard (JObj (<["obfs-host" := JStr "cdn.example.com"]>
                           nodeUdpRelayFalse))
  = Err (DeprecatedField "obfs-host" "obfsHost").
Proof.
  apply (proj1 (proj2 (proj2 (deprecatedGuard_passes_iff
                                (<["obfs-host" := JStr "cdn.example.com"]>
                                   nodeUdpRelayFalse)))));
    reflexivity.
Defined.

(** ** The loop *)

Section Loop.

Context {Params : Type}.
Variable validators : NodeTypeEnum -> jsval -> result jsobj.
Variable this : CustomProvider (Params := Params).

(** X13.  Every node of the batch is accounted for once: the number of
    nodes the loop adds to the result and the number of indexed reports it
    writes add up to the number of nodes it went through. *)
Theorem forEach_accounts_for_every_node (nodes : list jsval) (index : nat)
  (st : loopState) :
  (length (parsedNodeList (forEach validators this nodes index st))
   + length (nodeErrors (console (forEach validators this nodes index st))))%nat
  = (length (parsedNodeList st) + length (nodeErrors (console st))
     + length nodes)%nat.
Proof.
  rewrite forEach_parsed, forEach_errors, !length_app.
  assert (length (omap (passed validators this) nodes)
          + length (failuresFrom validators this index nodes)
          = length nodes)%nat as H.
  { clear st. revert index.
    induction nodes as [|node rest IH]; intros index; [done |].
    specialize (IH (S index)).
    change (omap (passed validators this) (node :: rest))
      with (match passed validators this node with
            | Some n => n :: omap (passed validators this) rest
            | None => omap (passed validators this) rest
            end).
    unfold passed at 1. simpl failuresFrom.
    destruct (outcome validators this node); simpl length; lia. }
  lia.
Qed.

End Loop.

(** ** The vmess post-processor *)

Lemma vmessSni_lookup (n : jsobj) (k : string) :
  k ≠ "sni" -> vmessSni n !! k = n !! k.
Proof.
  intros Hk. unfold vmessSni. destruct (truthy _); [|done].
  by rewrite lookup_insert_ne.
Qed.

Lemma vmessWsHeaders_lookup (n n1 : jsobj) (k : string) :
  vmessWsHeaders n = Ok n1 -> k ≠ "wsOpts" -> n1 !! k = n !! k.
Proof.
  unfold vmessWsHeaders. intros H Hk.
  destruct (truthy (field n "wsHeaders")); [|by injection H as <-].
  destruct (truthy (field n "wsOpts")) eqn:Hopts; simpl in H.
  - destruct (getProp_truthy _ "headers" Hopts) as [x Hx].
    rewrite Hx in H. simpl in H.
    destruct (truthy x); [done |].
    destruct (field n "wsOpts"); try done.
    injection H as <-. by rewrite lookup_insert_ne.
  - injection H as <-. by rewrite lookup_insert_ne.
Qed.

(** What rule 2 leaves on a node that has legacy headers. *)
Lemma vmessWsHeaders_result (n n1 : jsobj) :
  vmessWsHeaders n = Ok n1 ->
  truthy (field n "wsHeaders") = true ->
  exists opts,
    field n1 "wsOpts" = JObj opts
    /\ field opts "headers" = field n "wsHeaders".
Proof.
  unfold vmessWsHeaders. intros H Hws. rewrite Hws in H.
  destruct (truthy (field n "wsOpts")) eqn:Hopts; simpl in H.
  - destruct (getProp_truthy _ "headers" Hopts) as [x Hx].
    rewrite Hx in H. simpl in H.
    destruct (truthy x); [done |].
    destruct (field n "wsOpts"); try done.
    injection H as <-. eexists. rewrite field_insert_eq.
    split; [reflexivity |]. by rewrite field_insert_eq.
  - injection H as <-. eexists. rewrite field_insert_eq.
    split; [reflexivity |]. by rewrite field_insert_eq.
Qed.

Lemma prepareVmessNodeConfig_ok (n n' : jsobj) :
  prepareVmessNodeConfig n = Ok n' ->
  vmessWsHeaders (vmessSni n) = Ok n' /\ pathChecks n' = Ok n'.
Proof.
  unfold prepareVmessNodeConfig. intros H.
  destruct (vmessWsHeaders (vmessSni n)) as [n1|] eqn:H1; [|done].
  simpl in H. pose proof (pathChecks_ok _ _ H) as ->. by split.
Qed.

(** X14.  The post-processor writes [sni] and [wsOpts] and nothing else:
    every other property of a node that leaves it, [host], [wsHeaders] and
    the legacy [path] included, is the one the node came with. *)
Theorem prepareVmessNodeConfig_writes_sni_wsOpts_only (n n' : jsobj) :
  prepareVmessNodeConfig n = Ok n' ->
  forall k, k ≠ "sni" -> k ≠ "wsOpts" -> n' !! k = n !! k.
Proof.
  intros H k Hsni Hopts.
  destruct (prepareVmessNodeConfig_ok _ _ H) as [H1 _].
  by rewrite (vmessWsHeaders_lookup _ _ k H1), vmessSni_lookup.
Qed.

Lemma prepareVmessNodeConfig_writes_sni_wsOpts_only_witness :
  nodeHeadersMoved !! "wsHeaders" = nodeHeadersNoPath !! "wsHeaders".
Proof.
  apply (prepareVmessNodeConfig_writes_sni_wsOpts_only
           nodeHeadersNoPath nodeHeadersMoved).
  - vm_compute; reflexivity.
  - discriminate.
  - discriminate.
Defined.

(** X15.  The three checks on the transport let a node through exactly
    when it does not combine a truthy [path] with the network [ws], [h2] or
    [http]; when they refuse it, the error names the options object of that
    network.  A path on any other network ([tcp], [grpc], none) is let
    through. *)
Theorem pathChecks_passes_iff (n : jsobj) :
  (pathChecks n = Ok n
   <-> ~ (truthy (field n "path") = true
          /\ exists net, net ∈ pathTransports /\ field n "network" = JStr net))
  /\ (forall net,
        net ∈ pathTransports -> field n "network" = JStr net ->
        truthy (field n "path") = true ->
        pathChecks n = Err (MovePathTo (transportOptions net))).
Proof.
  split; [|intros net; apply pathChecks_truthy].
  split.
  - intros Hok (Hp & net & Hnet & Hn).
    by rewrite (pathChecks_truthy n net Hnet Hn Hp) in Hok.
  - intros Hno.
    destruct (truthy (field n "path")) eqn:Hp; [|by apply pathChecks_falsy].
    unfold pathChecks, pathCheck. rewrite Hp.
    destruct (field n "network") as [| | | | |net| | |] eqn:Hn; try done.
    destruct (String.eqb_spec net "ws") as [-> | _].
    { destruct Hno. split; [done |]. exists "ws".
      unfold pathTransports. rewrite !elem_of_cons. auto. }
    destruct (String.eqb_spec net "h2") as [-> | _].
    { destruct Hno. split; [done |]. exists "h2".
      unfold pathTransports. rewrite !elem_of_cons. auto. }
    destruct (String.eqb_spec net "http") as [-> | _].
    { destruct Hno. split; [done |]. exists "http".
      unfold pathTransports. rewrite !elem_of_cons. auto. }
    done.
Qed.

Lemma pathChecks_passes_iff_witness :
  pathChecks (<["network" := JStr "h2"]> nodeLegacyHeaders)
  = Err (MovePathTo (transportOptions "h2")).
Proof.
  apply (proj2 (pathChecks_passes_iff
                  (<["network" := JStr "h2"]> nodeLegacyHeaders)) "h2").
  - unfold pathTransports. rewrite !elem_of_cons. auto.
  - reflexivity.
  - reflexivity.
Defined.

(** X16.  A vmess node that uses none of the legacy attributes, that is
    whose [host], [wsHeaders] and [path] are absent or falsy, leaves the
    post-processor as it came. *)
Theorem prepareVmessNodeConfig_modern_node_unchanged (n : jsobj) :
  truthy (field n "host") = false ->
  truthy (field n "wsHeaders") = false ->
  truthy (field n "path") = false ->
  prepareVmessNodeConfig n = Ok n.
Proof.
  intros Hhost Hws Hpath.
  unfold prepareVmessNodeConfig, vmessSni, vmessWsHeaders.
  rewrite Hhost, Hws. simpl. by apply pathChecks_falsy.
Qed.

Lemma prepareVmessNodeConfig_modern_node_unchanged_witness :
  prepareVmessNodeConfig nodeEmptyPath = Ok nodeEmptyPath.
Proof.
  apply (prepareVmessNodeConfig_modern_node_unchanged nodeEmptyPath);
    reflexivity.
Defined.

(** X17.  Without legacy headers the post-processor is idempotent: a node
    that left it once, and whose [wsHeaders] is absent or falsy, leaves it
    unchanged when processed again. *)
Theorem prepareVmessNodeConfig_idempotent_without_wsHeaders (n n' : jsobj) :
  prepareVmessNodeConfig n = Ok n' ->
  truthy (field n "wsHeaders") = false ->
  prepareVmessNodeConfig n' = Ok n'.
Proof.
  intros H Hws.
  destruct (prepareVmessNodeConfig_ok _ _ H) as [H1 Hchecks].
  assert (n' = vmessSni n) as ->.
  { unfold vmessWsHeaders in H1. rewrite vmessSni_other in H1 by done.
    rewrite Hws in H1. by injection H1 as <-. }
  assert (vmessSni (vmessSni n) = vmessSni n) as Hsni.
  { unfold vmessSni at 1. rewrite (vmessSni_other n "host") by done.
    unfold vmessSni. destruct (truthy (field n "host")); [|done].
    by rewrite insert_insert_eq. }
  unfold prepareVmessNodeConfig. rewrite Hsni.
  unfold vmessWsHeaders. rewrite vmessSni_other by done. rewrite Hws.
  simpl. exact Hchecks.
Qed.

Lemma prepareVmessNodeConfig_idempotent_without_wsHeaders_witness :
  prepareVmessNodeConfig (<["sni" := JStr "a.example.com"]> nodeHostAndSni)
  = Ok (<["sni" := JStr "a.example.com"]> nodeHostAndSni).
Proof.
  apply (prepareVmessNodeConfig_idempotent_without_wsHeaders nodeHostAndSni
           (<["sni" := JStr "a.example.com"]> nodeHostAndSni));
    vm_compute; reflexivity.
Defined.

(** X18.  With legacy headers the post-processor cannot run twice: it
    leaves [wsHeaders] on the node next to the [wsOpts.headers] it has just
    written, so that a node that left it once with a truthy [wsHeaders] is
    refused with the conflict error when processed again. *)
Theorem prepareVmessNodeConfig_twice_conflicts (n n' : jsobj) :
  prepareVmessNodeConfig n = Ok n' ->
  truthy (field n "wsHeaders") = true ->
  prepareVmessNodeConfig n' = Err WsHeadersConflict.
Proof.
  intros H Hws.
  destruct (prepareVmessNodeConfig_ok _ _ H) as [H1 _].
  assert (truthy (field (vmessSni n) "wsHeaders") = true) as Hws1
    by (by rewrite vmessSni_other).
  destruct (vmessWsHeaders_result _ _ H1 Hws1) as (opts & Hopts & Hhead).
  assert (field n' "wsHeaders" = field n "wsHeaders") as Hws'.
  { by rewrite (vmessWsHeaders_other _ _ "wsHeaders" H1), vmessSni_other. }
  unfold prepareVmessNodeConfig, vmessWsHeaders.
  rewrite !vmessSni_other by done.
  rewrite Hws', Hws, Hopts. simpl truthy. cbv beta iota. simpl negb.
  cbv beta iota. rewrite getProp_obj, Hhead. simpl. by rewrite Hws1.
Qed.

Lemma prepareVmessNodeConfig_twice_conflicts_witness :
  prepareVmessNodeConfig nodeHeadersMoved = Err WsHeadersConflict.
Proof.
  apply (prepareVmessNodeConfig_twice_conflicts nodeHeadersNoPath
           nodeHeadersMoved);
    vm_compute; reflexivity.
Defined.

(** X19.  What holds of every node that leaves the post-processor: it does
    not combine a truthy [path] with the network [ws], [h2] or [http]; when
    its [wsHeaders] is truthy, its [wsOpts] is an object whose [headers] are
    these headers; when its [host] is truthy, its [sni] is that host. *)
Theorem prepareVmessNodeConfig_postcondition (n n' : jsobj) :
  prepareVmessNodeConfig n = Ok n' ->
  (forall net, net ∈ pathTransports -> field n' "network" = JStr net ->
               truthy (field n' "path") = false)
  /\ (truthy (field n' "wsHeaders") = true ->
      exists opts, field n' "wsOpts" = JObj opts
                   /\ field opts "headers" = field n' "wsHeaders")
  /\ (truthy (field n' "host") = true -> field n' "sni" = field n' "host").
Proof.
  intros H.
  destruct (prepareVmessNodeConfig_ok _ _ H) as [H1 Hchecks].
  split; [|split].
  - intros net Hnet Hn.
    destruct (truthy (field n' "path")) eqn:Hp; [|done].
    by rewrite (pathChecks_truthy n' net Hnet Hn Hp) in Hchecks.
  - intros Hws.
    rewrite (vmessWsHeaders_other _ _ "wsHeaders" H1) in * by done.
    by apply vmessWsHeaders_result.
  - rewrite !(vmessWsHeaders_other _ _ _ H1) by done.
    rewrite vmessSni_sni, vmessSni_other by done. by intros ->.
Qed.

Lemma prepareVmessNodeConfig_postcondition_witness :
  (forall net, net ∈ pathTransports ->
               field nodeHeadersMoved "network" = JStr net ->
               truthy (field nodeHeadersMoved "path") = false)
  /\ (truthy (field nodeHeadersMoved "wsHeaders") = true ->
      exists opts, field nodeHeadersMoved "wsOpts" = JObj opts
                   /\ field opts "headers"
                      = field nodeHeadersMoved "wsHeaders")
  /\ (truthy (field nodeHeadersMoved "host") = true ->
      field nodeHeadersMoved "sni" = field nodeHeadersMoved "host").
Proof.
  apply (prepareVmessNodeConfig_postcondition nodeHeadersNoPath
           nodeHeadersMoved).
  vm_compute; reflexivity.
Defined.

(** ** The underlying-proxy default *)

Section DefaultProxy.

Context {Params : Type}.
Variable validators : NodeTypeEnum -> jsval -> result jsobj.
Variable this : CustomProvider (Params := Params).

(** X20.  Under a provider built with a non-empty default, no node leaves
    the retrieval without an underlying proxy: every node of the result
    carries a truthy [underlyingProxy], its own or the default. *)
Theorem default_proxy_on_every_node (params : Params) (nodes : list jsval)
  (p : string) (parsed : list jsobj) (n : jsobj) :
  resolve this params = Ok nodes ->
  underlyingProxy this = Some p ->
  p ≠ "" ->
  getNodeList validators this params = Ok parsed ->
  n ∈ parsed ->
  truthy (field n "underlyingProxy") = true.
Proof.
  intros Hres Hp Hne Hget Hin.
  rewrite (getNodeList_resolved validators this params nodes Hres) in Hget.
  injection Hget as <-.
  apply list_elem_of_omap in Hin as (node & _ & Hpassed).
  unfold passed in Hpassed.
  destruct (outcome validators this node) as [n1|] eqn:Hout; [|done].
  injection Hpassed as ->.
  destruct (outcome_ok validators this node n Hout)
    as (decoded & type & n0 & _ & _ & _ & ->).
  rewrite fillUnderlyingProxy_field, Hp. simpl.
  destruct p; [done |]. simpl.
  by destruct (truthy (field n0 "underlyingProxy")) eqn:Hown.
Qed.

(** A node in the result wrote nothing to the console: the decoder writes
    only when it throws. *)
Lemma decodeEnvelope_ok_silent (node v : jsval) (written : list logEntry) :
  decodeEnvelope node = (written, Ok v) -> written = [].
Proof.
  unfold decodeEnvelope.
  destruct (getProp node "base64") as [b|]; [|done].
  destruct (truthy b); [|by intros [= <-]].
  destruct b; try done.
  destruct (matchBase64Pattern s) as [m|] eqn:Hm; [|done].
  destruct (matchBase64Pattern_scheme s m Hm) as [-> | ->]; simpl.
  - by intros [= <-].
  - by intros [= <-].
Qed.

(** X21.  A batch in which every node passes is silent and complete: the
    loop writes nothing to the console and adds one node to the result for
    each node of the batch. *)
Theorem forEach_all_pass_silent (nodes : list jsval) (index : nat)
  (st : loopState) :
  (forall node, node ∈ nodes ->
                exists n, outcome validators this node = Ok n) ->
  console (forEach validators this nodes index st) = console st
  /\ length (parsedNodeList (forEach validators this nodes index st))
     = (length (parsedNodeList st) + length nodes)%nat.
Proof.
  revert index st. induction nodes as [|node rest IH]; intros index st Hall.
  - simpl. split; [done | lia].
  - simpl forEach.
    destruct (Hall node) as [n Hn]; [apply elem_of_cons; by left |].
    destruct (IH (S index) (callback validators this st node index))
      as [Hconsole Hlen].
    { intros node' Hin. apply Hall. apply elem_of_cons. by right. }
    rewrite Hconsole, Hlen.
    unfold callback. unfold outcome, processNode in Hn.
    unfold processNode.
    destruct (decodeEnvelope node) as [written [v|e]] eqn:Hdec;
      simpl in Hn; [|done].
    rewrite (decodeEnvelope_ok_silent _ _ _ Hdec). simpl. rewrite Hn. simpl.
    rewrite app_nil_r, length_app. simpl. split; [done | lia].
Qed.

End DefaultProxy.

Lemma default_proxy_on_every_node_witness :
  truthy (field (<["underlyingProxy" := JStr "proxy-a"]> nodeUdpRelayFalse)
            "underlyingProxy") = true.
Proof.
  apply (default_proxy_on_every_node passthroughValidators
           (staticProvider [JObj nodeUdpRelayFalse] (Some "proxy-a")) tt
           [JObj nodeUdpRelayFalse] "proxy-a"
           [<["underlyingProxy" := JStr "proxy-a"]> nodeUdpRelayFalse]
           (<["underlyingProxy" := JStr "proxy-a"]> nodeUdpRelayFalse)).
  - reflexivity.
  - reflexivity.
  - discriminate.
  - vm_compute; reflexivity.
  - apply elem_of_cons. by left.
Defined.

Lemma forEach_all_pass_silent_witness :
  console (forEach passthroughValidators (staticProvider [] None)
             [JObj nodeOwnProxy; JObj nodeHostAndSni] 0
             {| parsedNodeList := []; console := [] |})
  = []
  /\ length (parsedNodeList
               (forEach passthroughValidators (staticProvider [] None)
                  [JObj nodeOwnProxy; JObj nodeHostAndSni] 0
                  {| parsedNodeList := []; console := [] |}))
     = (0 + length [JObj nodeOwnProxy; JObj nodeHostAndSni])%nat.
Proof.
  apply (forEach_all_pass_silent passthroughValidators
           (staticProvider [] None)
           [JObj nodeOwnProxy; JObj nodeHostAndSni] 0
           {| parsedNodeList := []; console := [] |}).
  intros node Hin.
  apply elem_of_cons in Hin as [-> | Hin]; [by eexists |].
  apply elem_of_cons in Hin as [-> | Hin]; [by eexists |].
  by apply elem_of_nil in Hin.
Defined.

(** ** Strings *)








(** X23.  [split] loses nothing: the pieces hold no separator, there is at
    least one of them, and joining them with the separator gives the text
    back. *)
Theorem split_join (c : ascii) (s : string) :
  String.concat (String c EmptyString) (split c s) = s
  /\ split c s ≠ []
  /\ Forall (fun piece => lacks c piece = true) (split c s).
Proof.
  induction s as [|x s (IHjoin & IHne & IHlacks)]; simpl.
  - split; [done |]. split; [done |]. by constructor.
  - destruct (Ascii.eqb_spec x c) as [-> | Hx].
    + split; [|split; [done | by constructor]].
      destruct (split c s) as [|p ps] eqn:Hs; [done |].
      simpl. by rewrite <- IHjoin.
    + destruct (split c s) as [|p ps] eqn:Hs; [done |].
      split; [|split; [done |]].
      * rewrite <- IHjoin. simpl. by destruct ps.
      * inversion IHlacks as [|? ? Hp Hps]; subst. constructor; [|done].
        unfold lacks in *. simpl. rewrite Hp.
        by destruct (Ascii.eqb_spec x c).
Qed.
